(** * go-shopify: the Product and Customer resource clients

    A shallow embedding of [product.go] and [customer.go]: the path
    formatting done with [fmt.Sprintf], the entity structs with their
    [json] tags, and the operations of [ProductServiceOp] and
    [CustomerServiceOp] over the shared HTTP [Client]. *)

From Stdlib Require Import String Ascii List NArith ZArith Lia Bool.
Import ListNotations.

Set Warnings "-register-all,-notation-for-abbreviation".

Local Open Scope string_scope.
Local Open Scope N_scope.

(** ** Part 1: [fmt.Sprintf] on the fragment the package uses *)

Module Fmt.

(** [byte('0' + d)] *)
Definition digit_byte (d : N) : ascii := ascii_of_N (48 + d).

(** The base-10 loop of [fmt.fmtInteger] (package fmt, format.go):
<<
    for u >= 10 { i--; next := u / 10; buf[i] = byte('0' + u - next*10); u = next }
    i--; buf[i] = digits[u]
>>
    The buffer is filled from its end, so the digits already written are
    the suffix [buf].  [fuel] bounds the number of iterations. *)
Fixpoint fmtInteger_loop (fuel : nat) (u : N) (buf : string) : string :=
  match fuel with
  | O => String (digit_byte u) buf
  | S fuel' =>
      if 10 <=? u then
        let next := u / 10 in
        fmtInteger_loop fuel' next (String (digit_byte (u - next * 10)) buf)
      else String (digit_byte u) buf
  end.

(** A [uint64] has at most twenty decimal digits. *)
Definition fmtInteger (u : N) : string := fmtInteger_loop 20 u "".

Arguments fmtInteger : simpl never.

(** The operands of the [Sprintf] calls of the package: a [string]
    (the base path) or a [uint64] (an id). *)
Inductive arg : Type :=
| ArgString (s : string)
| ArgUint64 (u : N).

Definition typeString (a : arg) : string :=
  match a with
  | ArgString _ => "string"
  | ArgUint64 _ => "uint64"
  end.

(** The plain [%v] rendering, used inside the bad-verb report. *)
Definition printValue (a : arg) : string :=
  match a with
  | ArgString s => s
  | ArgUint64 u => fmtInteger u
  end.

(** [%!verb(type=value)] *)
Definition badVerb (verb : ascii) (a : arg) : string :=
  "%!" ++ String verb ("(" ++ typeString a ++ "=" ++ printValue a ++ ")").

(** [pp.fmtString]: [%v] and [%s] print the string as it is. *)
Definition fmtString (s : string) (verb : ascii) : string :=
  if Ascii.eqb verb "v" then s
  else if Ascii.eqb verb "s" then s
  else badVerb verb (ArgString s).

(** [pp.fmtInteger] for an unsigned operand: [%v] and [%d] both go to
    the base-10 formatter. *)
Definition ppFmtInteger (u : N) (verb : ascii) : string :=
  if Ascii.eqb verb "v" then fmtInteger u
  else if Ascii.eqb verb "d" then fmtInteger u
  else badVerb verb (ArgUint64 u).

(** [pp.printArg]: the type switch on the operand. *)
Definition printArg (a : arg) (verb : ascii) : string :=
  match a with
  | ArgString s => fmtString s verb
  | ArgUint64 u => ppFmtInteger u verb
  end.

(** [%!(EXTRA type=value, type=value)] for operands left over. *)
Fixpoint extraArgs (a : list arg) : string :=
  match a with
  | [] => ""
  | [x] => typeString x ++ "=" ++ printValue x
  | x :: a' => typeString x ++ "=" ++ printValue x ++ ", " ++ extraArgs a'
  end.

(** [pp.doPrintf] without flags, width and precision: a directive is
    ['%'] followed by its verb.  Only the verbs [s], [d] and [v] are
    modelled; the package uses no other. *)
Fixpoint doPrintf (format : string) (a : list arg) : string :=
  match format with
  | EmptyString =>
      match a with
      | [] => ""
      | _ => "%!(EXTRA " ++ extraArgs a ++ ")"
      end
  | String c rest =>
      if Ascii.eqb c "%" then
        match rest with
        | EmptyString => "%!(NOVERB)"
        | String verb rest' =>
            if Ascii.eqb verb "%" then String "%" (doPrintf rest' a)
            else
              match a with
              | [] => "%!" ++ String verb ("(MISSING)" ++ doPrintf rest' [])
              | x :: a' => printArg x verb ++ doPrintf rest' a'
              end
        end
      else String c (doPrintf rest a)
  end.

Definition Sprintf (format : string) (a : list arg) : string :=
  doPrintf format a.

(** *** Reading a decimal numeral back *)

Definition digit_value (c : ascii) : option N :=
  let n := N_of_ascii c in
  if (48 <=? n) && (n <=? 57) then Some (n - 48) else None.

Fixpoint parse_digits (acc : N) (s : string) : option N :=
  match s with
  | EmptyString => Some acc
  | String c s' =>
      match digit_value c with
      | Some d => parse_digits (10 * acc + d) s'
      | None => None
      end
  end.

(** The number a non-empty string of decimal digits denotes. *)
Definition decimal_value (s : string) : option N :=
  match s with
  | EmptyString => None
  | _ => parse_digits 0 s
  end.

(** No superfluous leading zero. *)
Definition canonical (s : string) : bool :=
  match s with
  | String c (String _ _) => negb (Ascii.eqb c "0")
  | _ => true
  end.

(** [d] is the decimal numeral of [n]. *)
Definition decimal_of (n : N) (d : string) : Prop :=
  decimal_value d = Some n /\ canonical d = true.

End Fmt.

(** ** Part 2: the data model *)

(** A Go slice: [None] is the nil slice, [Some l] a slice with the
    elements [l]. *)
Definition slice (A : Type) : Type := option (list A).

Definition len {A : Type} (s : slice A) : nat :=
  match s with
  | None => O
  | Some l => List.length l
  end.

(** *** JSON documents and the values [encoding/json] walks over *)

Inductive json : Type :=
| JNull
| JBool (b : bool)
| JNumber (z : Z)
| JString (s : string)
| JArray (l : list json)
| JObject (members : list (string * json)).

(** The [json:"name,omitempty"] tag of a struct field. *)
Record tag : Type := mkTag { tag_name : string; tag_omitempty : bool }.

(** A Go value by its [reflect.Kind], as far as the entity structs need
    it.  [VMarshaler j] is a struct value whose type has its own
    [MarshalJSON] ([time.Time], [decimal.Decimal]) and encodes to [j]. *)
Inductive value : Type :=
| VBool (b : bool)
| VInt (z : Z)
| VUint (n : N)
| VString (s : string)
| VPtr (p : option value)
| VSlice (s : slice value)
| VStruct (fields : list (tag * value))
| VMarshaler (j : json).

(** [isEmptyValue] of [encoding/json]: false, 0, a nil pointer, and an
    empty slice or string are empty; a struct never is. *)
Definition isEmptyValue (v : value) : bool :=
  match v with
  | VBool b => negb b
  | VInt z => Z.eqb z 0
  | VUint n => N.eqb n 0
  | VString s => Nat.eqb (String.length s) 0
  | VPtr p => match p with None => true | Some _ => false end
  | VSlice s => Nat.eqb (len s) 0
  | VStruct _ => false
  | VMarshaler _ => false
  end.

(** [json.Marshal]: a struct becomes an object with one member per field,
    in declaration order, leaving out the [omitempty] fields that are
    empty; a nil pointer and a nil slice become [null]. *)
Fixpoint Marshal (v : value) : json :=
  match v with
  | VBool b => JBool b
  | VInt z => JNumber z
  | VUint n => JNumber (Z.of_N n)
  | VString s => JString s
  | VPtr None => JNull
  | VPtr (Some x) => Marshal x
  | VSlice None => JNull
  | VSlice (Some l) => JArray (List.map Marshal l)
  | VStruct fields =>
      JObject
        ((fix members (fs : list (tag * value)) : list (string * json) :=
            match fs with
            | [] => []
            | (t, x) :: fs' =>
                if tag_omitempty t && isEmptyValue x then members fs'
                else (tag_name t, Marshal x) :: members fs'
            end) fields)
  | VMarshaler j => j
  end.

(** The keys of an encoded object. *)
Definition keys (j : json) : list string :=
  match j with
  | JObject members => List.map fst members
  | _ => []
  end.

Definition omitempty (name : string) : tag := mkTag name true.

Definition ptr_value {A : Type} (f : A -> value) (p : option A) : value :=
  VPtr (option_map f p).

Definition slice_value {A : Type} (f : A -> value) (s : slice A) : value :=
  VSlice (option_map (List.map f) s).

(** *** Calls on the shared client thread the state of the world *)

Definition M (W A : Type) : Type := W -> A * W.

Definition ret {W A : Type} (a : A) : M W A := fun w => (a, w).

Definition bind {W A B : Type} (m : M W A) (f : A -> M W B) : M W B :=
  fun w => let (a, w') := m w in f a w'.

Notation "x <- m ;; k" := (bind m (fun x => k))
  (at level 61, m at next level, right associativity).
Notation "' pat <- m ;; k" := (bind m (fun x => match x with pat => k end))
  (at level 61, pat pattern, m at next level, right associativity).

Section GoShopify.

(** [time.Time] and [decimal.Decimal] come from other packages; [Variant],
    [Image], [Metafield] and [CustomerAddress] are declared in files of
    this package other than [product.go] and [customer.go].  They are
    parameters here, each with its encoding.  [Image] is a struct type:
    [Image_fields] lists its fields, and [zero_Image] is its zero value. *)
Context {Time Decimal Variant Image Metafield CustomerAddress : Type}.
Context (Time_MarshalJSON : Time -> json).
Context (Decimal_MarshalJSON : Decimal -> json).
Context (Variant_value : Variant -> value).
Context (Metafield_value : Metafield -> value).
Context (CustomerAddress_value : CustomerAddress -> value).
Context (Image_fields : Image -> list (tag * value)).
Context (zero_Image : Image).

(** [Metafield] has an [ID] field, which the metafield helper prints
    into the path of an update. *)
Context (Metafield_ID : Metafield -> N).

(** The dynamic values callers pass as query options ([interface{}]), and
    the non-nil values of the [error] interface. *)
Context {Options Err : Type}.

(** [interface{}] holding query options: [None] is [nil]. *)
Definition iface : Type := option Options.

(** [error]: [None] is [nil]. *)
Definition error : Type := option Err.

(** *** product.go *)

Record ProductOption : Type := mkProductOption {
  ProductOption_ID : N;
  ProductOption_ProductID : Z;
  ProductOption_Name : string;
  ProductOption_Position : Z;
  ProductOption_Values : slice string
}.

Record Product : Type := mkProduct {
  Product_ID : N;
  Product_Title : string;
  Product_BodyHTML : string;
  Product_Vendor : string;
  Product_ProductType : string;
  Product_Handle : string;
  Product_CreatedAt : option Time;
  Product_UpdatedAt : option Time;
  Product_PublishedAt : option Time;
  Product_PublishedScope : string;
  Product_Tags : string;
  Product_Options : slice ProductOption;
  Product_Variants : slice Variant;
  Product_Image : Image;
  Product_Images : slice Image;
  Product_TemplateSuffix : string;
  Product_MetafieldsGlobalTitleTag : string;
  Product_MetafieldsGlobalDescriptionTag : string;
  Product_Metafields : slice Metafield
}.

(** [Product{}] *)
Definition zero_Product : Product :=
  mkProduct 0 "" "" "" "" "" None None None "" "" None None zero_Image None
            "" "" "" None.

Record ProductResource : Type := mkProductResource {
  ProductResource_Product : option Product
}.

Record ProductsResource : Type := mkProductsResource {
  ProductsResource_Products : slice Product
}.

(** *** customer.go *)

Record Customer : Type := mkCustomer {
  Customer_ID : N;
  Customer_Email : string;
  Customer_FirstName : string;
  Customer_LastName : string;
  Customer_State : string;
  Customer_Note : string;
  Customer_VerifiedEmail : bool;
  Customer_MultipassIdentifier : string;
  Customer_OrdersCount : Z;
  Customer_TaxExempt : bool;
  Customer_TotalSpent : option Decimal;
  Customer_Phone : string;
  Customer_Tags : string;
  Customer_LastOrderId : Z;
  Customer_LastOrderName : string;
  Customer_AcceptsMarketing : bool;
  Customer_DefaultAddress : option CustomerAddress;
  Customer_Addresses : slice (option CustomerAddress);
  Customer_CreatedAt : option Time;
  Customer_UpdatedAt : option Time;
  Customer_Metafields : slice Metafield
}.

(** [Customer{}] *)
Definition zero_Customer : Customer :=
  mkCustomer 0 "" "" "" "" "" false "" 0%Z false None "" "" 0%Z "" false
             None None None None None.

Record CustomerResource : Type := mkCustomerResource {
  CustomerResource_Customer : option Customer
}.

Record CustomersResource : Type := mkCustomersResource {
  CustomersResource_Customers : slice Customer
}.

Record CustomerSearchOptions : Type := mkCustomerSearchOptions {
  CustomerSearchOptions_Page : Z;
  CustomerSearchOptions_Limit : Z;
  CustomerSearchOptions_Fields : string;
  CustomerSearchOptions_Order : string;
  CustomerSearchOptions_Query : string
}.

(** *** The structs as [encoding/json] sees them, tag by tag *)

Definition Time_value (t : Time) : value := VMarshaler (Time_MarshalJSON t).
Definition Decimal_value (d : Decimal) : value := VMarshaler (Decimal_MarshalJSON d).
Definition Image_value (i : Image) : value := VStruct (Image_fields i).

Definition ProductOption_value (o : ProductOption) : value :=
  VStruct
    [ (omitempty "id", VUint (ProductOption_ID o));
      (omitempty "product_id", VInt (ProductOption_ProductID o));
      (omitempty "name", VString (ProductOption_Name o));
      (omitempty "position", VInt (ProductOption_Position o));
      (omitempty "values", slice_value VString (ProductOption_Values o)) ].

Definition Product_value (p : Product) : value :=
  VStruct
    [ (omitempty "id", VUint (Product_ID p));
      (omitempty "title", VString (Product_Title p));
      (omitempty "body_html", VString (Product_BodyHTML p));
      (omitempty "vendor", VString (Product_Vendor p));
      (omitempty "product_type", VString (Product_ProductType p));
      (omitempty "handle", VString (Product_Handle p));
      (omitempty "created_at", ptr_value Time_value (Product_CreatedAt p));
      (omitempty "updated_at", ptr_value Time_value (Product_UpdatedAt p));
      (omitempty "published_at", ptr_value Time_value (Product_PublishedAt p));
      (omitempty "published_scope", VString (Product_PublishedScope p));
      (omitempty "tags", VString (Product_Tags p));
      (omitempty "options", slice_value ProductOption_value (Product_Options p));
      (omitempty "variants", slice_value Variant_value (Product_Variants p));
      (omitempty "image", Image_value (Product_Image p));
      (omitempty "images", slice_value Image_value (Product_Images p));
      (omitempty "template_suffix", VString (Product_TemplateSuffix p));
      (omitempty "metafields_global_title_tag",
         VString (Product_MetafieldsGlobalTitleTag p));
      (omitempty "metafields_global_description_tag",
         VString (Product_MetafieldsGlobalDescriptionTag p));
      (omitempty "metafields", slice_value Metafield_value (Product_Metafields p)) ].

Definition Customer_value (c : Customer) : value :=
  VStruct
    [ (omitempty "id", VUint (Customer_ID c));
      (omitempty "email", VString (Customer_Email c));
      (omitempty "first_name", VString (Customer_FirstName c));
      (omitempty "last_name", VString (Customer_LastName c));
      (omitempty "state", VString (Customer_State c));
      (omitempty "note", VString (Customer_Note c));
      (omitempty "verified_email", VBool (Customer_VerifiedEmail c));
      (omitempty "multipass_identifier", VString (Customer_MultipassIdentifier c));
      (omitempty "orders_count", VInt (Customer_OrdersCount c));
      (omitempty "tax_exempt", VBool (Customer_TaxExempt c));
      (omitempty "total_spent", ptr_value Decimal_value (Customer_TotalSpent c));
      (omitempty "phone", VString (Customer_Phone c));
      (omitempty "tags", VString (Customer_Tags c));
      (omitempty "last_order_id", VInt (Customer_LastOrderId c));
      (omitempty "last_order_name", VString (Customer_LastOrderName c));
      (omitempty "accepts_marketing", VBool (Customer_AcceptsMarketing c));
      (omitempty "default_address",
         ptr_value CustomerAddress_value (Customer_DefaultAddress c));
      (omitempty "addresses",
         slice_value (ptr_value CustomerAddress_value) (Customer_Addresses c));
      (omitempty "created_at", ptr_value Time_value (Customer_CreatedAt c));
      (omitempty "updated_at", ptr_value Time_value (Customer_UpdatedAt c));
      (omitempty "metafields", slice_value Metafield_value (Customer_Metafields c)) ].

(** ** Part 3: the HTTP client and the two resource clients *)

(** Modelled from the spec: the envelopes of the metafield sub-resource
    (metafield.go is not covered here), a singular and a plural one
    as for products and customers. *)
Record MetafieldResource : Type := mkMetafieldResource {
  MetafieldResource_Metafield : option Metafield
}.

Record MetafieldsResource : Type := mkMetafieldsResource {
  MetafieldsResource_Metafields : slice Metafield
}.

(** The dynamic type of an envelope handed to the client as
    [interface{}]. *)
Inductive rkind : Type :=
| KProductResource
| KProductsResource
| KCustomerResource
| KCustomersResource
| KMetafieldResource
| KMetafieldsResource.

Definition rtype (k : rkind) : Type :=
  match k with
  | KProductResource => ProductResource
  | KProductsResource => ProductsResource
  | KCustomerResource => CustomerResource
  | KCustomersResource => CustomersResource
  | KMetafieldResource => MetafieldResource
  | KMetafieldsResource => MetafieldsResource
  end.

(** An envelope together with its dynamic type. *)
Definition envelope : Type := {k : rkind & rtype k}.

(** [new(T)] for each envelope type. *)
Definition new (k : rkind) : rtype k :=
  match k with
  | KProductResource => mkProductResource None
  | KProductsResource => mkProductsResource None
  | KCustomerResource => mkCustomerResource None
  | KCustomersResource => mkCustomersResource None
  | KMetafieldResource => mkMetafieldResource None
  | KMetafieldsResource => mkMetafieldsResource None
  end.

(** The five primitives of [*Client].  [Get], [Post] and [Put] write
    into the destination they are handed: the destination as the call
    leaves it is returned next to the error.  [W] is the state of the
    transport and of the remote side. *)
Record Client (W : Type) : Type := mkClient {
  Client_Get : forall k : rkind, string -> rtype k -> iface -> M W (rtype k * error);
  Client_Post : forall k : rkind, string -> envelope -> rtype k -> M W (rtype k * error);
  Client_Put : forall k : rkind, string -> envelope -> rtype k -> M W (rtype k * error);
  Client_Delete : string -> M W error;
  Client_Count : string -> iface -> M W (Z * error)
}.

Arguments Client_Get {W} _ _ _ _ _ _.
Arguments Client_Post {W} _ _ _ _ _ _.
Arguments Client_Put {W} _ _ _ _ _ _.
Arguments Client_Delete {W} _ _ _.
Arguments Client_Count {W} _ _ _ _.

(** *** product.go *)

Definition productsBasePath : string := "admin/products".
Definition productsResourceName : string := "products".

Record ProductServiceOp (W : Type) : Type := mkProductServiceOp {
  ProductServiceOp_client : Client W
}.
Arguments ProductServiceOp_client {W} _.

Definition ProductServiceOp_List {W : Type} (s : ProductServiceOp W)
    (options : iface) : M W (slice Product * error) :=
  let path := Fmt.Sprintf "%s.json" [Fmt.ArgString productsBasePath] in
  let resource := new KProductsResource in
  '(resource, err) <-
     Client_Get (ProductServiceOp_client s) KProductsResource path resource options ;;
  ret (ProductsResource_Products resource, err).

Definition ProductServiceOp_Count {W : Type} (s : ProductServiceOp W)
    (options : iface) : M W (Z * error) :=
  let path := Fmt.Sprintf "%s/count.json" [Fmt.ArgString productsBasePath] in
  Client_Count (ProductServiceOp_client s) path options.

Definition ProductServiceOp_Get {W : Type} (s : ProductServiceOp W)
    (productID : N) (options : iface) : M W (option Product * error) :=
  let path := Fmt.Sprintf "%s/%d.json"
                [Fmt.ArgString productsBasePath; Fmt.ArgUint64 productID] in
  let resource := new KProductResource in
  '(resource, err) <-
     Client_Get (ProductServiceOp_client s) KProductResource path resource options ;;
  ret (ProductResource_Product resource, err).

Definition ProductServiceOp_Create {W : Type} (s : ProductServiceOp W)
    (product : Product) : M W (option Product * error) :=
  let path := Fmt.Sprintf "%s.json" [Fmt.ArgString productsBasePath] in
  let wrappedData := mkProductResource (Some product) in
  let resource := new KProductResource in
  '(resource, err) <-
     Client_Post (ProductServiceOp_client s) KProductResource path
       (existT rtype KProductResource wrappedData) resource ;;
  ret (ProductResource_Product resource, err).

Definition ProductServiceOp_Update {W : Type} (s : ProductServiceOp W)
    (product : Product) : M W (option Product * error) :=
  let path := Fmt.Sprintf "%s/%d.json"
                [Fmt.ArgString productsBasePath; Fmt.ArgUint64 (Product_ID product)] in
  let wrappedData := mkProductResource (Some product) in
  let resource := new KProductResource in
  '(resource, err) <-
     Client_Put (ProductServiceOp_client s) KProductResource path
       (existT rtype KProductResource wrappedData) resource ;;
  ret (ProductResource_Product resource, err).

Definition ProductServiceOp_Delete {W : Type} (s : ProductServiceOp W)
    (productID : N) : M W error :=
  Client_Delete (ProductServiceOp_client s)
    (Fmt.Sprintf "%s/%d.json"
       [Fmt.ArgString productsBasePath; Fmt.ArgUint64 productID]).

(** *** customer.go *)

Definition customersBasePath : string := "admin/customers".
Definition customersResourceName : string := "customers".

Record CustomerServiceOp (W : Type) : Type := mkCustomerServiceOp {
  CustomerServiceOp_client : Client W
}.
Arguments CustomerServiceOp_client {W} _.

Definition NewCustomerServiceOp {W : Type} (cl : Client W) : CustomerServiceOp W :=
  mkCustomerServiceOp W cl.

Definition CustomerServiceOp_List {W : Type} (s : CustomerServiceOp W)
    (options : iface) : M W (slice Customer * error) :=
  let path := Fmt.Sprintf "%s.json" [Fmt.ArgString customersBasePath] in
  let resource := new KCustomersResource in
  '(resource, err) <-
     Client_Get (CustomerServiceOp_client s) KCustomersResource path resource options ;;
  ret (CustomersResource_Customers resource, err).

Definition CustomerServiceOp_Count {W : Type} (s : CustomerServiceOp W)
    (options : iface) : M W (Z * error) :=
  let path := Fmt.Sprintf "%s/count.json" [Fmt.ArgString customersBasePath] in
  Client_Count (CustomerServiceOp_client s) path options.

Definition CustomerServiceOp_Get {W : Type} (s : CustomerServiceOp W)
    (customerID : N) (options : iface) : M W (option Customer * error) :=
  let path := Fmt.Sprintf "%s/%v.json"
                [Fmt.ArgString customersBasePath; Fmt.ArgUint64 customerID] in
  let resource := new KCustomerResource in
  '(resource, err) <-
     Client_Get (CustomerServiceOp_client s) KCustomerResource path resource options ;;
  ret (CustomerResource_Customer resource, err).

Definition CustomerServiceOp_Create {W : Type} (s : CustomerServiceOp W)
    (customer : Customer) : M W (option Customer * error) :=
  let path := Fmt.Sprintf "%s.json" [Fmt.ArgString customersBasePath] in
  let wrappedData := mkCustomerResource (Some customer) in
  let resource := new KCustomerResource in
  '(resource, err) <-
     Client_Post (CustomerServiceOp_client s) KCustomerResource path
       (existT rtype KCustomerResource wrappedData) resource ;;
  ret (CustomerResource_Customer resource, err).

Definition CustomerServiceOp_Update {W : Type} (s : CustomerServiceOp W)
    (customer : Customer) : M W (option Customer * error) :=
  let path := Fmt.Sprintf "%s/%d.json"
                [Fmt.ArgString customersBasePath; Fmt.ArgUint64 (Customer_ID customer)] in
  let wrappedData := mkCustomerResource (Some customer) in
  let resource := new KCustomerResource in
  '(resource, err) <-
     Client_Put (CustomerServiceOp_client s) KCustomerResource path
       (existT rtype KCustomerResource wrappedData) resource ;;
  ret (CustomerResource_Customer resource, err).

Definition CustomerServiceOp_Delete {W : Type} (s : CustomerServiceOp W)
    (customerID : N) : M W error :=
  let path := Fmt.Sprintf "%s/%d.json"
                [Fmt.ArgString customersBasePath; Fmt.ArgUint64 customerID] in
  Client_Delete (CustomerServiceOp_client s) path.

Definition CustomerServiceOp_Search {W : Type} (s : CustomerServiceOp W)
    (options : iface) : M W (slice Customer * error) :=
  let path := Fmt.Sprintf "%s/search.json" [Fmt.ArgString customersBasePath] in
  let resource := new KCustomersResource in
  '(resource, err) <-
     Client_Get (CustomerServiceOp_client s) KCustomersResource path resource options ;;
  ret (CustomersResource_Customers resource, err).

(** *** Metafields of a product or a customer *)

(** The helper both resource clients build; its fields are those of the
    composite literals in product.go and customer.go. *)
Record MetafieldServiceOp (W : Type) : Type := mkMetafieldServiceOp {
  MetafieldServiceOp_client : Client W;
  MetafieldServiceOp_resource : string;
  MetafieldServiceOp_resourceID : N
}.
Arguments MetafieldServiceOp_client {W} _.
Arguments MetafieldServiceOp_resource {W} _.
Arguments MetafieldServiceOp_resourceID {W} _.

(** Modelled from the spec: the methods of the helper (metafield.go is
    not covered here).  They work against the path
    [<resource-type>/<resource-id>/metafields], with [.json] for the
    collection and [/<metafield-id>.json] for an item, and are the
    operations of a resource client scoped under the parent resource. *)
Definition MetafieldServiceOp_prefix {W : Type} (s : MetafieldServiceOp W) : string :=
  Fmt.Sprintf "%s/%d/metafields"
    [Fmt.ArgString (MetafieldServiceOp_resource s);
     Fmt.ArgUint64 (MetafieldServiceOp_resourceID s)].

(** Modelled from the spec: list the metafields of the parent resource. *)
Definition MetafieldServiceOp_List {W : Type} (s : MetafieldServiceOp W)
    (options : iface) : M W (slice Metafield * error) :=
  let path := Fmt.Sprintf "%s.json" [Fmt.ArgString (MetafieldServiceOp_prefix s)] in
  let resource := new KMetafieldsResource in
  '(resource, err) <-
     Client_Get (MetafieldServiceOp_client s) KMetafieldsResource path resource options ;;
  ret (MetafieldsResource_Metafields resource, err).

(** Modelled from the spec: count the metafields of the parent resource. *)
Definition MetafieldServiceOp_Count {W : Type} (s : MetafieldServiceOp W)
    (options : iface) : M W (Z * error) :=
  let path := Fmt.Sprintf "%s/count.json" [Fmt.ArgString (MetafieldServiceOp_prefix s)] in
  Client_Count (MetafieldServiceOp_client s) path options.

(** Modelled from the spec: get one metafield of the parent resource. *)
Definition MetafieldServiceOp_Get {W : Type} (s : MetafieldServiceOp W)
    (metafieldID : N) (options : iface) : M W (option Metafield * error) :=
  let path := Fmt.Sprintf "%s/%d.json"
                [Fmt.ArgString (MetafieldServiceOp_prefix s); Fmt.ArgUint64 metafieldID] in
  let resource := new KMetafieldResource in
  '(resource, err) <-
     Client_Get (MetafieldServiceOp_client s) KMetafieldResource path resource options ;;
  ret (MetafieldResource_Metafield resource, err).

(** Modelled from the spec: create a metafield under the parent resource. *)
Definition MetafieldServiceOp_Create {W : Type} (s : MetafieldServiceOp W)
    (metafield : Metafield) : M W (option Metafield * error) :=
  let path := Fmt.Sprintf "%s.json" [Fmt.ArgString (MetafieldServiceOp_prefix s)] in
  let wrappedData := mkMetafieldResource (Some metafield) in
  let resource := new KMetafieldResource in
  '(resource, err) <-
     Client_Post (MetafieldServiceOp_client s) KMetafieldResource path
       (existT rtype KMetafieldResource wrappedData) resource ;;
  ret (MetafieldResource_Metafield resource, err).

(** Modelled from the spec: update a metafield of the parent resource. *)
Definition MetafieldServiceOp_Update {W : Type} (s : MetafieldServiceOp W)
    (metafield : Metafield) : M W (option Metafield * error) :=
  let path := Fmt.Sprintf "%s/%d.json"
                [Fmt.ArgString (MetafieldServiceOp_prefix s);
                 Fmt.ArgUint64 (Metafield_ID metafield)] in
  let wrappedData := mkMetafieldResource (Some metafield) in
  let resource := new KMetafieldResource in
  '(resource, err) <-
     Client_Put (MetafieldServiceOp_client s) KMetafieldResource path
       (existT rtype KMetafieldResource wrappedData) resource ;;
  ret (MetafieldResource_Metafield resource, err).

(** Modelled from the spec: delete a metafield of the parent resource. *)
Definition MetafieldServiceOp_Delete {W : Type} (s : MetafieldServiceOp W)
    (metafieldID : N) : M W error :=
  Client_Delete (MetafieldServiceOp_client s)
    (Fmt.Sprintf "%s/%d.json"
       [Fmt.ArgString (MetafieldServiceOp_prefix s); Fmt.ArgUint64 metafieldID]).

(** product.go, the metafield operations *)

Definition ProductServiceOp_ListMetafields {W : Type} (s : ProductServiceOp W)
    (productID : N) (options : iface) : M W (slice Metafield * error) :=
  let metafieldService :=
    mkMetafieldServiceOp W (ProductServiceOp_client s) productsResourceName productID in
  MetafieldServiceOp_List metafieldService options.

Definition ProductServiceOp_CountMetafields {W : Type} (s : ProductServiceOp W)
    (productID : N) (options : iface) : M W (Z * error) :=
  let metafieldService :=
    mkMetafieldServiceOp W (ProductServiceOp_client s) productsResourceName productID in
  MetafieldServiceOp_Count metafieldService options.

Definition ProductServiceOp_GetMetafield {W : Type} (s : ProductServiceOp W)
    (productID metafieldID : N) (options : iface) : M W (option Metafield * error) :=
  let metafieldService :=
    mkMetafieldServiceOp W (ProductServiceOp_client s) productsResourceName productID in
  MetafieldServiceOp_Get metafieldService metafieldID options.

Definition ProductServiceOp_CreateMetafield {W : Type} (s : ProductServiceOp W)
    (productID : N) (metafield : Metafield) : M W (option Metafield * error) :=
  let metafieldService :=
    mkMetafieldServiceOp W (ProductServiceOp_client s) productsResourceName productID in
  MetafieldServiceOp_Create metafieldService metafield.

Definition ProductServiceOp_UpdateMetafield {W : Type} (s : ProductServiceOp W)
    (productID : N) (metafield : Metafield) : M W (option Metafield * error) :=
  let metafieldService :=
    mkMetafieldServiceOp W (ProductServiceOp_client s) productsResourceName productID in
  MetafieldServiceOp_Update metafieldService metafield.

Definition ProductServiceOp_DeleteMetafield {W : Type} (s : ProductServiceOp W)
    (productID metafieldID : N) : M W error :=
  let metafieldService :=
    mkMetafieldServiceOp W (ProductServiceOp_client s) productsResourceName productID in
  MetafieldServiceOp_Delete metafieldService metafieldID.

(** customer.go, the metafield operations *)

Definition CustomerServiceOp_ListMetafields {W : Type} (s : CustomerServiceOp W)
    (customerID : N) (options : iface) : M W (slice Metafield * error) :=
  let metafieldService :=
    mkMetafieldServiceOp W (CustomerServiceOp_client s) customersResourceName customerID in
  MetafieldServiceOp_List metafieldService options.

Definition CustomerServiceOp_CountMetafields {W : Type} (s : CustomerServiceOp W)
    (customerID : N) (options : iface) : M W (Z * error) :=
  let metafieldService :=
    mkMetafieldServiceOp W (CustomerServiceOp_client s) customersResourceName customerID in
  MetafieldServiceOp_Count metafieldService options.

Definition CustomerServiceOp_GetMetafield {W : Type} (s : CustomerServiceOp W)
    (customerID metafieldID : N) (options : iface) : M W (option Metafield * error) :=
  let metafieldService :=
    mkMetafieldServiceOp W (CustomerServiceOp_client s) customersResourceName customerID in
  MetafieldServiceOp_Get metafieldService metafieldID options.

Definition CustomerServiceOp_CreateMetafield {W : Type} (s : CustomerServiceOp W)
    (customerID : N) (metafield : Metafield) : M W (option Metafield * error) :=
  let metafieldService :=
    mkMetafieldServiceOp W (CustomerServiceOp_client s) customersResourceName customerID in
  MetafieldServiceOp_Create metafieldService metafield.

Definition CustomerServiceOp_UpdateMetafield {W : Type} (s : CustomerServiceOp W)
    (customerID : N) (metafield : Metafield) : M W (option Metafield * error) :=
  let metafieldService :=
    mkMetafieldServiceOp W (CustomerServiceOp_client s) customersResourceName customerID in
  MetafieldServiceOp_Update metafieldService metafield.

Definition CustomerServiceOp_DeleteMetafield {W : Type} (s : CustomerServiceOp W)
    (customerID metafieldID : N) : M W error :=
  let metafieldService :=
    mkMetafieldServiceOp W (CustomerServiceOp_client s) customersResourceName customerID in
  MetafieldServiceOp_Delete metafieldService metafieldID.

(** ** Part 4: observing the calls made on the client *)

(** One call of a client primitive, with the arguments it was given. *)
Inductive request : Type :=
| ReqGet (path : string) (resource : envelope) (options : iface)
| ReqPost (path : string) (data : envelope) (resource : envelope)
| ReqPut (path : string) (data : envelope) (resource : envelope)
| ReqDelete (path : string)
| ReqCount (path : string) (options : iface).

Definition request_path (r : request) : string :=
  match r with
  | ReqGet path _ _ => path
  | ReqPost path _ _ => path
  | ReqPut path _ _ => path
  | ReqDelete path => path
  | ReqCount path _ => path
  end.

(** A client that behaves as [c] and also appends every call it receives
    to a log: the capturing transport of a test. *)
Definition recording {W : Type} (c : Client W) : Client (W * list request) :=
  mkClient (W * list request)
    (fun k path resource options wl =>
       let (out, w') := Client_Get c k path resource options (fst wl) in
       (out, (w', (snd wl ++ [ReqGet path (existT rtype k resource) options])%list)))
    (fun k path data resource wl =>
       let (out, w') := Client_Post c k path data resource (fst wl) in
       (out, (w', (snd wl ++ [ReqPost path data (existT rtype k resource)])%list)))
    (fun k path data resource wl =>
       let (out, w') := Client_Put c k path data resource (fst wl) in
       (out, (w', (snd wl ++ [ReqPut path data (existT rtype k resource)])%list)))
    (fun path wl =>
       let (out, w') := Client_Delete c path (fst wl) in
       (out, (w', (snd wl ++ [ReqDelete path])%list)))
    (fun path options wl =>
       let (out, w') := Client_Count c path options (fst wl) in
       (out, (w', (snd wl ++ [ReqCount path options])%list))).

(** The calls a computation makes on a recording client, started with an
    empty log. *)
Definition calls {W A : Type} (m : M (W * list request) A) (w : W) : list request :=
  snd (snd (m (w, []))).

(** The error the primitive named by a request returns, and the world it
    leaves. *)
Definition perform {W : Type} (c : Client W) (r : request) : M W error :=
  match r with
  | ReqGet path (existT _ k resource) options =>
      '(_, err) <- Client_Get c k path resource options ;; ret err
  | ReqPost path data (existT _ k resource) =>
      '(_, err) <- Client_Post c k path data resource ;; ret err
  | ReqPut path data (existT _ k resource) =>
      '(_, err) <- Client_Put c k path data resource ;; ret err
  | ReqDelete path => Client_Delete c path
  | ReqCount path options =>
      '(_, err) <- Client_Count c path options ;; ret err
  end.

(** The method sets of [ProductService] and [CustomerService], without
    the embedded [MetafieldsService]. *)
Inductive operation : Type :=
| ProductList (options : iface)
| ProductCount (options : iface)
| ProductGet (productID : N) (options : iface)
| ProductCreate (product : Product)
| ProductUpdate (product : Product)
| ProductDelete (productID : N)
| CustomerList (options : iface)
| CustomerCount (options : iface)
| CustomerGet (customerID : N) (options : iface)
| CustomerSearch (options : iface)
| CustomerCreate (customer : Customer)
| CustomerUpdate (customer : Customer)
| CustomerDelete (customerID : N).

(** What a method returns next to its error. *)
Inductive result : Type :=
| ResProducts (l : slice Product)
| ResProduct (p : option Product)
| ResCustomers (l : slice Customer)
| ResCustomer (c : option Customer)
| ResCount (n : Z)
| ResNone.

Definition with_result {W A : Type} (f : A -> result) (m : M W (A * error))
  : M W (result * error) :=
  '(a, err) <- m ;; ret (f a, err).

Definition invoke {W : Type} (c : Client W) (o : operation) : M W (result * error) :=
  let ps := mkProductServiceOp W c in
  let cs := NewCustomerServiceOp c in
  match o with
  | ProductList options => with_result ResProducts (ProductServiceOp_List ps options)
  | ProductCount options => with_result ResCount (ProductServiceOp_Count ps options)
  | ProductGet id options => with_result ResProduct (ProductServiceOp_Get ps id options)
  | ProductCreate p => with_result ResProduct (ProductServiceOp_Create ps p)
  | ProductUpdate p => with_result ResProduct (ProductServiceOp_Update ps p)
  | ProductDelete id => err <- ProductServiceOp_Delete ps id ;; ret (ResNone, err)
  | CustomerList options => with_result ResCustomers (CustomerServiceOp_List cs options)
  | CustomerCount options => with_result ResCount (CustomerServiceOp_Count cs options)
  | CustomerGet id options => with_result ResCustomer (CustomerServiceOp_Get cs id options)
  | CustomerSearch options => with_result ResCustomers (CustomerServiceOp_Search cs options)
  | CustomerCreate x => with_result ResCustomer (CustomerServiceOp_Create cs x)
  | CustomerUpdate x => with_result ResCustomer (CustomerServiceOp_Update cs x)
  | CustomerDelete id => err <- CustomerServiceOp_Delete cs id ;; ret (ResNone, err)
  end.

(** The method set of [MetafieldsService], which both services embed. *)
Inductive metafield_operation : Type :=
| ListMetafields (options : iface)
| CountMetafields (options : iface)
| GetMetafield (metafieldID : N) (options : iface)
| CreateMetafield (metafield : Metafield)
| UpdateMetafield (metafield : Metafield)
| DeleteMetafield (metafieldID : N).

Inductive metafield_result : Type :=
| ResMetafields (l : slice Metafield)
| ResMetafield (m : option Metafield)
| ResMetafieldCount (n : Z)
| ResMetafieldNone.

Definition with_metafield_result {W A : Type} (f : A -> metafield_result)
    (m : M W (A * error)) : M W (metafield_result * error) :=
  '(a, err) <- m ;; ret (f a, err).

(** A call on the helper itself. *)
Definition invoke_helper {W : Type} (h : MetafieldServiceOp W)
    (o : metafield_operation) : M W (metafield_result * error) :=
  match o with
  | ListMetafields options =>
      with_metafield_result ResMetafields (MetafieldServiceOp_List h options)
  | CountMetafields options =>
      with_metafield_result ResMetafieldCount (MetafieldServiceOp_Count h options)
  | GetMetafield mid options =>
      with_metafield_result ResMetafield (MetafieldServiceOp_Get h mid options)
  | CreateMetafield m =>
      with_metafield_result ResMetafield (MetafieldServiceOp_Create h m)
  | UpdateMetafield m =>
      with_metafield_result ResMetafield (MetafieldServiceOp_Update h m)
  | DeleteMetafield mid =>
      err <- MetafieldServiceOp_Delete h mid ;; ret (ResMetafieldNone, err)
  end.

(** The metafield methods of the product service, for the product [id]. *)
Definition invoke_product_metafields {W : Type} (s : ProductServiceOp W) (id : N)
    (o : metafield_operation) : M W (metafield_result * error) :=
  match o with
  | ListMetafields options =>
      with_metafield_result ResMetafields (ProductServiceOp_ListMetafields s id options)
  | CountMetafields options =>
      with_metafield_result ResMetafieldCount (ProductServiceOp_CountMetafields s id options)
  | GetMetafield mid options =>
      with_metafield_result ResMetafield (ProductServiceOp_GetMetafield s id mid options)
  | CreateMetafield m =>
      with_metafield_result ResMetafield (ProductServiceOp_CreateMetafield s id m)
  | UpdateMetafield m =>
      with_metafield_result ResMetafield (ProductServiceOp_UpdateMetafield s id m)
  | DeleteMetafield mid =>
      err <- ProductServiceOp_DeleteMetafield s id mid ;; ret (ResMetafieldNone, err)
  end.

(** The metafield methods of the customer service, for the customer [id]. *)
Definition invoke_customer_metafields {W : Type} (s : CustomerServiceOp W) (id : N)
    (o : metafield_operation) : M W (metafield_result * error) :=
  match o with
  | ListMetafields options =>
      with_metafield_result ResMetafields (CustomerServiceOp_ListMetafields s id options)
  | CountMetafields options =>
      with_metafield_result ResMetafieldCount (CustomerServiceOp_CountMetafields s id options)
  | GetMetafield mid options =>
      with_metafield_result ResMetafield (CustomerServiceOp_GetMetafield s id mid options)
  | CreateMetafield m =>
      with_metafield_result ResMetafield (CustomerServiceOp_CreateMetafield s id m)
  | UpdateMetafield m =>
      with_metafield_result ResMetafield (CustomerServiceOp_UpdateMetafield s id m)
  | DeleteMetafield mid =>
      err <- CustomerServiceOp_DeleteMetafield s id mid ;; ret (ResMetafieldNone, err)
  end.

(** [p] is the beginning of [s]. *)
Definition starts_with (p s : string) : Prop := exists rest, s = p ++ rest.



(** *** Stand-ins for the client *)

(** A stateless client: every primitive returns [err], the writing ones
    after passing the destination through [fill], and [Count] returns
    [n]. *)
Definition stub_client (fill : forall k : rkind, rtype k -> rtype k) (n : Z)
    (err : error) : Client unit :=
  mkClient unit
    (fun k _ resource _ w => ((fill k resource, err), w))
    (fun k _ _ resource w => ((fill k resource, err), w))
    (fun k _ _ resource w => ((fill k resource, err), w))
    (fun _ w => (err, w))
    (fun _ _ w => ((n, err), w)).

Definition leave (k : rkind) (resource : rtype k) : rtype k := resource.

(** A decoder that has stored the products it read before it failed. *)
Definition fill_products (l : list Product) (k : rkind) : rtype k -> rtype k :=
  match k with
  | KProductsResource => fun _ => mkProductsResource (Some l)
  | _ => fun resource => resource
  end.

(** A server that answers the count [n] at [at_path] and [not_found]
    elsewhere. *)
Definition count_server (at_path : string) (n : Z) (not_found : Err) : Client unit :=
  mkClient unit
    (fun k _ resource _ w => ((resource, Some not_found), w))
    (fun k _ _ resource w => ((resource, Some not_found), w))
    (fun k _ _ resource w => ((resource, Some not_found), w))
    (fun _ w => (Some not_found, w))
    (fun path _ w =>
       if String.eqb path at_path then ((n, None), w)
       else ((0%Z, Some not_found), w)).

(** *** The envelopes as [encoding/json] sees them *)

(** The tag [json:"name"], without omitempty. *)
Definition always (name : string) : tag := mkTag name false.

Definition ProductResource_value (r : ProductResource) : value :=
  VStruct [ (always "product", ptr_value Product_value (ProductResource_Product r)) ].

Definition ProductsResource_value (r : ProductsResource) : value :=
  VStruct [ (always "products", slice_value Product_value (ProductsResource_Products r)) ].

Definition CustomerResource_value (r : CustomerResource) : value :=
  VStruct [ (always "customer", ptr_value Customer_value (CustomerResource_Customer r)) ].

Definition CustomersResource_value (r : CustomersResource) : value :=
  VStruct [ (always "customers", slice_value Customer_value (CustomersResource_Customers r)) ].

(** The fields of a struct value. *)
Definition fields_of (v : value) : list (tag * value) :=
  match v with
  | VStruct fields => fields
  | _ => []
  end.

(** *** Reading an item path back, as a router of the remote side does *)

Fixpoint strip_prefix (p s : string) : option string :=
  match p with
  | EmptyString => Some s
  | String a p' =>
      match s with
      | EmptyString => None
      | String b s' => if Ascii.eqb a b then strip_prefix p' s' else None
      end
  end.

(** The number spelled by the leading digits of [s], and what follows
    them. *)
Fixpoint read_digits (acc : N) (s : string) : N * string :=
  match s with
  | EmptyString => (acc, EmptyString)
  | String c s' =>
      match Fmt.digit_value c with
      | Some d => read_digits (10 * acc + d) s'
      | None => (acc, s)
      end
  end.

(** The id in a path of the shape [<base>/<digits>.json], if the path has
    that shape. *)
Definition route_item (base path : string) : option N :=
  match strip_prefix (base ++ "/") path with
  | Some (String c rest) =>
      match Fmt.digit_value c with
      | Some _ =>
          let (n, tail) := read_digits 0 (String c rest) in
          if String.eqb tail ".json" then Some n else None
      | None => None
      end
  | _ => None
  end.

(** *** Callers *)

(** A caller that makes the operations of a list one after the other,
    whatever each of them returns. *)
Fixpoint invoke_all {W : Type} (c : Client W) (os : list operation)
  : M W (list (result * error)) :=
  match os with
  | [] => ret []
  | o :: os' =>
      r <- invoke c o ;;
      rs <- invoke_all c os' ;;
      ret (r :: rs)
  end.

Definition is_product_operation (o : operation) : bool :=
  match o with
  | ProductList _ | ProductCount _ | ProductGet _ _
  | ProductCreate _ | ProductUpdate _ | ProductDelete _ => true
  | _ => false
  end.

(** The destination a call hands to the client, if it has one. *)
Definition request_destination (r : request) : option envelope :=
  match r with
  | ReqGet _ resource _ => Some resource
  | ReqPost _ _ resource => Some resource
  | ReqPut _ _ resource => Some resource
  | ReqDelete _ => None
  | ReqCount _ _ => None
  end.

(** The body a call sends, if it has one. *)
Definition request_body (r : request) : option envelope :=
  match r with
  | ReqPost _ data _ => Some data
  | ReqPut _ data _ => Some data
  | _ => None
  end.

(** The paths of the calls an operation makes. *)
Definition paths_of {W : Type} (c : Client W) (o : operation) (w : W) : list string :=
  List.map request_path (calls (invoke (recording c) o) w).

(** The id an operation on a single item is about. *)
Definition item_id_of (o : operation) : option N :=
  match o with
  | ProductGet id _ => Some id
  | ProductUpdate p => Some (Product_ID p)
  | ProductDelete id => Some id
  | CustomerGet id _ => Some id
  | CustomerUpdate x => Some (Customer_ID x)
  | CustomerDelete id => Some id
  | _ => None
  end.

(** The base path of the service an operation belongs to. *)
Definition base_of (o : operation) : string :=
  if is_product_operation o then productsBasePath else customersBasePath.

(** Whether the character [a] occurs in [s]. *)
Fixpoint has_char (a : ascii) (s : string) : bool :=
  match s with
  | EmptyString => false
  | String c s' => Ascii.eqb a c || has_char a s'
  end.

(** *** Proof steps shared by the operations *)

(** Unfold an operation down to the primitive it calls. *)
Ltac unfold_ops :=
  unfold calls, invoke, invoke_helper, invoke_product_metafields,
    invoke_customer_metafields, with_result, with_metafield_result,
    NewCustomerServiceOp,
    ProductServiceOp_List, ProductServiceOp_Count, ProductServiceOp_Get,
    ProductServiceOp_Create, ProductServiceOp_Update, ProductServiceOp_Delete,
    CustomerServiceOp_List, CustomerServiceOp_Count, CustomerServiceOp_Get,
    CustomerServiceOp_Create, CustomerServiceOp_Update, CustomerServiceOp_Delete,
    CustomerServiceOp_Search,
    ProductServiceOp_ListMetafields, ProductServiceOp_CountMetafields,
    ProductServiceOp_GetMetafield, ProductServiceOp_CreateMetafield,
    ProductServiceOp_UpdateMetafield, ProductServiceOp_DeleteMetafield,
    CustomerServiceOp_ListMetafields, CustomerServiceOp_CountMetafields,
    CustomerServiceOp_GetMetafield, CustomerServiceOp_CreateMetafield,
    CustomerServiceOp_UpdateMetafield, CustomerServiceOp_DeleteMetafield,
    MetafieldServiceOp_List, MetafieldServiceOp_Count, MetafieldServiceOp_Get,
    MetafieldServiceOp_Create, MetafieldServiceOp_Update, MetafieldServiceOp_Delete,
    MetafieldServiceOp_prefix, perform, bind, ret; cbn.

(** Name the outcome of the primitive the goal is waiting for. *)
Ltac primitive_outcome :=
  match goal with
  | |- context [Client_Get ?c ?k ?p ?r ?o ?w] =>
      destruct (Client_Get c k p r o w) as [[? ?] ?] eqn:?
  | |- context [Client_Post ?c ?k ?p ?d ?r ?w] =>
      destruct (Client_Post c k p d r w) as [[? ?] ?] eqn:?
  | |- context [Client_Put ?c ?k ?p ?d ?r ?w] =>
      destruct (Client_Put c k p d r w) as [[? ?] ?] eqn:?
  | |- context [Client_Delete ?c ?p ?w] =>
      destruct (Client_Delete c p w) as [? ?] eqn:?
  | |- context [Client_Count ?c ?p ?o ?w] =>
      destruct (Client_Count c p o w) as [[? ?] ?] eqn:?
  end.

Ltac run_op := unfold_ops; repeat primitive_outcome; cbn.

(** ** Part 5: the decimal formatter *)

Lemma digit_value_digit_byte (d : N) :
  d < 10 -> Fmt.digit_value (Fmt.digit_byte d) = Some d.
Proof.
  intros Hd.
  unfold Fmt.digit_value, Fmt.digit_byte.
  rewrite N_ascii_embedding by lia.
  replace (48 <=? 48 + d) with true by (symmetry; apply N.leb_le; lia).
  replace (48 + d <=? 57) with true by (symmetry; apply N.leb_le; lia).
  cbn [andb]. f_equal. lia.
Qed.

Lemma parse_digits_app (s1 s2 : string) :
  forall acc,
    Fmt.parse_digits acc (s1 ++ s2) =
    match Fmt.parse_digits acc s1 with
    | Some a => Fmt.parse_digits a s2
    | None => None
    end.
Proof.
  induction s1 as [|c s1 IH]; intros acc; cbn.
  - reflexivity.
  - destruct (Fmt.digit_value c); [apply IH | reflexivity].
Qed.

Lemma append_assoc (s1 s2 s3 : string) : (s1 ++ s2) ++ s3 = s1 ++ (s2 ++ s3).
Proof.
  induction s1 as [|c s1 IH]; cbn; [reflexivity | now rewrite IH].
Qed.

Lemma length_append (s1 s2 : string) :
  String.length (s1 ++ s2) = (String.length s1 + String.length s2)%nat.
Proof.
  induction s1 as [|c s1 IH]; cbn; [reflexivity | now rewrite IH].
Qed.

(** The loop writes, in front of [buf], the canonical numeral of [u]. *)
Lemma fmtInteger_loop_spec (fuel : nat) :
  forall u buf,
    u < 10 ^ N.of_nat (S fuel) ->
    exists d,
      Fmt.fmtInteger_loop fuel u buf = d ++ buf /\
      d <> "" /\
      (forall acc,
          Fmt.parse_digits acc d =
          Some (acc * 10 ^ N.of_nat (String.length d) + u)) /\
      Fmt.canonical d = true.
Proof.
  assert (Hone : forall u, u < 10 ->
            forall acc, Fmt.parse_digits acc (String (Fmt.digit_byte u) "") =
                        Some (acc * 10 ^ N.of_nat 1 + u)).
  { intros u Hu acc. cbn [Fmt.parse_digits].
    rewrite digit_value_digit_byte by exact Hu. f_equal.
    change (10 ^ N.of_nat 1) with 10. lia. }
  induction fuel as [|fuel IH]; intros u buf Hu.
  - change (10 ^ N.of_nat 1) with 10 in Hu.
    exists (String (Fmt.digit_byte u) ""). cbn [Fmt.fmtInteger_loop].
    repeat split; [discriminate | now apply Hone].
  - cbn [Fmt.fmtInteger_loop].
    destruct (10 <=? u) eqn:Hge.
    + apply N.leb_le in Hge.
      remember (u / 10) as next eqn:Hnextdef.
      assert (Hdm : u = 10 * next + u mod 10) by (subst next; apply N.div_mod').
      assert (Hmod : u mod 10 < 10) by (apply N.mod_lt; lia).
      remember (u mod 10) as last eqn:Hlastdef.
      assert (Hlast : u - next * 10 = last) by lia.
      assert (Hnext : next < 10 ^ N.of_nat (S fuel)).
      { subst next. apply N.Div0.div_lt_upper_bound.
        replace (10 * 10 ^ N.of_nat (S fuel)) with (10 ^ N.of_nat (S (S fuel))); [exact Hu|].
        rewrite (Nat2N.inj_succ (S fuel)), N.pow_succ_r'. reflexivity. }
      rewrite Hlast.
      destruct (IH next (String (Fmt.digit_byte last) buf) Hnext)
        as (d' & Heq & Hne & Hval & Hcan).
      exists (d' ++ String (Fmt.digit_byte last) "").
      split; [|split; [|split]].
      * rewrite Heq, append_assoc. reflexivity.
      * destruct d'; [congruence | discriminate].
      * intros acc. rewrite parse_digits_app, Hval, Hone by exact Hmod.
        f_equal. rewrite length_append. cbn [String.length].
        rewrite Nat2N.inj_add, N.pow_add_r.
        change (10 ^ N.of_nat 1) with 10. lia.
      * destruct d' as [|a [|b r]]; [congruence | |exact Hcan].
        cbn. destruct (Ascii.eqb a "0") eqn:Ha; [|reflexivity].
        apply Ascii.eqb_eq in Ha. subst a.
        specialize (Hval 0). cbn in Hval. injection Hval as Hval. lia.
    + apply N.leb_gt in Hge.
      exists (String (Fmt.digit_byte u) "").
      repeat split; [discriminate | now apply Hone].
Qed.

(** For a [uint64], the formatter returns the decimal numeral. *)
Lemma fmtInteger_decimal (u : N) :
  u < 2 ^ 64 -> Fmt.decimal_of u (Fmt.fmtInteger u).
Proof.
  intros Hu.
  destruct (fmtInteger_loop_spec 20 u "") as (d & Heq & Hne & Hval & Hcan).
  { eapply N.lt_trans; [exact Hu | reflexivity]. }
  unfold Fmt.fmtInteger, Fmt.decimal_of. rewrite Heq.
  assert (Hd : d ++ "" = d).
  { clear. induction d as [|c d IH]; cbn; [reflexivity | now rewrite IH]. }
  rewrite Hd. split; [|exact Hcan].
  destruct d; [congruence|]. unfold Fmt.decimal_value.
  rewrite Hval. f_equal.
Qed.

(** ** Part 6: the operations of the two resource clients *)

(** Recording changes neither what an operation returns nor the world
    it leaves. *)
Lemma recording_is_transparent
    (W : Type) (c : Client W) (w : W) (log : list request) (o : operation) :
  fst (invoke (recording c) o (w, log)) = fst (invoke c o w) /\
  fst (snd (invoke (recording c) o (w, log))) = snd (invoke c o w).
Proof.
  destruct o; run_op; split; reflexivity.
Qed.

(** The keys of an encoded struct are the names of the fields that are
    not both tagged omitempty and empty, in declaration order. *)
Lemma Marshal_struct_keys (fields : list (tag * value)) :
  keys (Marshal (VStruct fields))
    = List.map (fun f => tag_name (fst f))
        (List.filter
           (fun f => negb (tag_omitempty (fst f) && isEmptyValue (snd f))) fields).
Proof.
  cbn [Marshal keys].
  induction fields as [|[t x] fields IH]; [reflexivity|].
  cbn [List.filter fst snd].
  destruct (tag_omitempty t && isEmptyValue x); cbn [negb]; [exact IH|].
  cbn [List.map fst]. f_equal. exact IH.
Qed.

(** Every product, whatever its fields hold, is encoded with the key
    "image". *)
Lemma product_encoding_always_has_image (p : Product) :
  In "image" (keys (Marshal (Product_value p))).
Proof.
  unfold Product_value. rewrite Marshal_struct_keys.
  apply in_map_iff.
  exists (omitempty "image", Image_value (Product_Image p)).
  split; [reflexivity|].
  apply filter_In. split; [|reflexivity].
  cbn. tauto.
Qed.

(** C1: for every id, Get and Delete of a product call the client with
    the path "admin/products/<id>.json", Get and Delete of a customer
    with "admin/customers/<id>.json", where <id> is the decimal numeral
    of the id; Delete makes exactly one call of the Delete primitive, to
    that path, and nothing else. *)
Theorem item_operations_target_the_item_path
    (W : Type) (c : Client W) (w : W) (id : N) (options : iface) :
  id < 2 ^ 64 ->
  exists d : string,
    Fmt.decimal_of id d /\
    calls (ProductServiceOp_Get (mkProductServiceOp _ (recording c)) id options) w
      = [ReqGet ("admin/products/" ++ d ++ ".json")
           (existT rtype KProductResource (new KProductResource)) options] /\
    calls (ProductServiceOp_Delete (mkProductServiceOp _ (recording c)) id) w
      = [ReqDelete ("admin/products/" ++ d ++ ".json")] /\
    calls (CustomerServiceOp_Get (NewCustomerServiceOp (recording c)) id options) w
      = [ReqGet ("admin/customers/" ++ d ++ ".json")
           (existT rtype KCustomerResource (new KCustomerResource)) options] /\
    calls (CustomerServiceOp_Delete (NewCustomerServiceOp (recording c)) id) w
      = [ReqDelete ("admin/customers/" ++ d ++ ".json")].
Proof.
  intros Hid. exists (Fmt.fmtInteger id).
  split; [now apply fmtInteger_decimal|].
  repeat split; run_op; reflexivity.
Qed.

(** C4: an Update of a product (of a customer) whose ID is zero calls
    the Put primitive once, with the path "admin/products/0.json"
    ("admin/customers/0.json") and the entity as it was passed, and returns
    what that call produced: the missing id is neither filled in nor
    refused locally. *)
Theorem update_without_id_targets_zero
    (W : Type) (c : Client W) (w : W) (product : Product) (customer : Customer) :
  Product_ID product = 0 ->
  Customer_ID customer = 0 ->
  (calls (ProductServiceOp_Update (mkProductServiceOp _ (recording c)) product) w
     = [ReqPut "admin/products/0.json"
          (existT rtype KProductResource (mkProductResource (Some product)))
          (existT rtype KProductResource (new KProductResource))] /\
   ProductServiceOp_Update (mkProductServiceOp _ c) product w
     = let (out, w') :=
         Client_Put c KProductResource "admin/products/0.json"
           (existT rtype KProductResource (mkProductResource (Some product)))
           (new KProductResource) w in
       ((ProductResource_Product (fst out), snd out), w')) /\
  (calls (CustomerServiceOp_Update (NewCustomerServiceOp (recording c)) customer) w
     = [ReqPut "admin/customers/0.json"
          (existT rtype KCustomerResource (mkCustomerResource (Some customer)))
          (existT rtype KCustomerResource (new KCustomerResource))] /\
   CustomerServiceOp_Update (NewCustomerServiceOp c) customer w
     = let (out, w') :=
         Client_Put c KCustomerResource "admin/customers/0.json"
           (existT rtype KCustomerResource (mkCustomerResource (Some customer)))
           (new KCustomerResource) w in
       ((CustomerResource_Customer (fst out), snd out), w')).
Proof.
  intros Hp Hc.
  repeat split; unfold_ops; rewrite ?Hp, ?Hc;
    change (Fmt.fmtInteger 0) with "0"; cbn;
    repeat primitive_outcome; reflexivity.
Qed.

(** C6: Create wraps the entity in the singular envelope, calls the Post
    primitive once with the collection path ("admin/products.json",
    "admin/customers.json"), that envelope and a fresh destination, and
    returns the entity found in the singular field of the destination
    after the call. *)
Theorem create_posts_the_envelope
    (W : Type) (c : Client W) (w : W) (product : Product) (customer : Customer) :
  (calls (ProductServiceOp_Create (mkProductServiceOp _ (recording c)) product) w
     = [ReqPost "admin/products.json"
          (existT rtype KProductResource (mkProductResource (Some product)))
          (existT rtype KProductResource (new KProductResource))] /\
   ProductServiceOp_Create (mkProductServiceOp _ c) product w
     = let (out, w') :=
         Client_Post c KProductResource "admin/products.json"
           (existT rtype KProductResource (mkProductResource (Some product)))
           (new KProductResource) w in
       ((ProductResource_Product (fst out), snd out), w')) /\
  (calls (CustomerServiceOp_Create (NewCustomerServiceOp (recording c)) customer) w
     = [ReqPost "admin/customers.json"
          (existT rtype KCustomerResource (mkCustomerResource (Some customer)))
          (existT rtype KCustomerResource (new KCustomerResource))] /\
   CustomerServiceOp_Create (NewCustomerServiceOp c) customer w
     = let (out, w') :=
         Client_Post c KCustomerResource "admin/customers.json"
           (existT rtype KCustomerResource (mkCustomerResource (Some customer)))
           (new KCustomerResource) w in
       ((CustomerResource_Customer (fst out), snd out), w')).
Proof.
  repeat split; run_op; reflexivity.
Qed.

(** C7: Count is one call of the Count primitive with the path
    "<collection>/count.json" and the options as given, and returns the
    integer and the error of that call as they are; against a server
    that answers 7 at "admin/products/count.json", Count(nil) on
    products returns (7, nil). *)
Theorem count_returns_the_bare_count
    (W : Type) (c : Client W) (w : W) (options : iface) (not_found : Err) :
  ProductServiceOp_Count (mkProductServiceOp _ c) options w
    = Client_Count c "admin/products/count.json" options w /\
  calls (ProductServiceOp_Count (mkProductServiceOp _ (recording c)) options) w
    = [ReqCount "admin/products/count.json" options] /\
  CustomerServiceOp_Count (NewCustomerServiceOp c) options w
    = Client_Count c "admin/customers/count.json" options w /\
  calls (CustomerServiceOp_Count (NewCustomerServiceOp (recording c)) options) w
    = [ReqCount "admin/customers/count.json" options] /\
  fst (ProductServiceOp_Count
         (mkProductServiceOp _ (count_server "admin/products/count.json" 7 not_found))
         None tt)
    = (7%Z, None).
Proof.
  repeat split; run_op; reflexivity.
Qed.

(** C9: when the Get primitive returns a nil error and leaves the
    singular field of the envelope unset, Get of a product and Get of a
    customer return a nil entity together with a nil error. *)
Theorem get_may_return_nil_nil
    (W : Type) (c : Client W) (w : W) (id : N) (options : iface) :
  (forall (r : ProductResource) (w' : W),
      Client_Get c KProductResource
        ("admin/products/" ++ Fmt.fmtInteger id ++ ".json")
        (new KProductResource) options w = ((r, None), w') ->
      ProductResource_Product r = None ->
      fst (ProductServiceOp_Get (mkProductServiceOp _ c) id options w) = (None, None)) /\
  (forall (r : CustomerResource) (w' : W),
      Client_Get c KCustomerResource
        ("admin/customers/" ++ Fmt.fmtInteger id ++ ".json")
        (new KCustomerResource) options w = ((r, None), w') ->
      CustomerResource_Customer r = None ->
      fst (CustomerServiceOp_Get (NewCustomerServiceOp c) id options w) = (None, None)).
Proof.
  split; intros r w' Hget Hnil; unfold_ops;
    cbn in Hget; rewrite Hget; cbn; rewrite Hnil; reflexivity.
Qed.

(** C10: for every uint64 id, formatting the item path of a customer
    with the verb v gives the same string as formatting it with the verb
    d, namely "admin/customers/<id>.json" with the decimal numeral of
    the id; so Get and Delete of a customer call the client with the
    same path, built the way Get of a product builds its own. *)
Theorem verb_v_equals_verb_d
    (W : Type) (c : Client W) (w : W) (id : N) (options : iface) :
  id < 2 ^ 64 ->
  Fmt.Sprintf "%s/%v.json" [Fmt.ArgString customersBasePath; Fmt.ArgUint64 id]
    = Fmt.Sprintf "%s/%d.json" [Fmt.ArgString customersBasePath; Fmt.ArgUint64 id] /\
  (exists d : string,
      Fmt.decimal_of id d /\
      Fmt.Sprintf "%s/%v.json" [Fmt.ArgString customersBasePath; Fmt.ArgUint64 id]
        = "admin/customers/" ++ d ++ ".json" /\
      Fmt.Sprintf "%s/%d.json" [Fmt.ArgString productsBasePath; Fmt.ArgUint64 id]
        = "admin/products/" ++ d ++ ".json") /\
  List.map request_path
    (calls (CustomerServiceOp_Get (NewCustomerServiceOp (recording c)) id options) w)
    = List.map request_path
        (calls (CustomerServiceOp_Delete (NewCustomerServiceOp (recording c)) id) w).
Proof.
  intros Hid. split; [reflexivity|]. split.
  - exists (Fmt.fmtInteger id).
    split; [now apply fmtInteger_decimal|]. split; reflexivity.
  - run_op. reflexivity.
Qed.

(** C5: for every resource id, each metafield operation of the product
    service is the same operation of a metafield helper built from the
    service's client, the resource name "products" and that id, and makes
    one call whose path starts with "products/<id>/metafields"; the
    customer service does the same with "customers". *)
Theorem metafield_operations_delegate
    (W : Type) (c : Client W) (w : W) (id : N) (o : metafield_operation) :
  id < 2 ^ 64 ->
  invoke_product_metafields (mkProductServiceOp _ c) id o
    = invoke_helper (mkMetafieldServiceOp W c "products" id) o /\
  invoke_customer_metafields (NewCustomerServiceOp c) id o
    = invoke_helper (mkMetafieldServiceOp W c "customers" id) o /\
  exists d : string,
    Fmt.decimal_of id d /\
    (exists r : request,
        calls (invoke_product_metafields (mkProductServiceOp _ (recording c)) id o) w
          = [r] /\
        starts_with ("products/" ++ d ++ "/metafields") (request_path r)) /\
    (exists r : request,
        calls (invoke_customer_metafields (NewCustomerServiceOp (recording c)) id o) w
          = [r] /\
        starts_with ("customers/" ++ d ++ "/metafields") (request_path r)).
Proof.
  intros Hid.
  split; [destruct o; reflexivity|].
  split; [destruct o; reflexivity|].
  exists (Fmt.fmtInteger id).
  split; [now apply fmtInteger_decimal|].
  split; destruct o; eexists;
    (split; [run_op; reflexivity | cbn; eexists; reflexivity]).
Qed.

(** C8: every operation of the two services makes exactly one call of a
    client primitive, and the error it returns and the world it leaves
    are the error and the world of that one call: the error is handed
    on as it is, nothing is tried again, and no error is made up
    locally. *)
Theorem errors_pass_through
    (W : Type) (c : Client W) (w : W) (o : operation) :
  exists req : request,
    calls (invoke (recording c) o) w = [req] /\
    snd (fst (invoke c o w)) = fst (perform c req w) /\
    snd (invoke c o w) = snd (perform c req w).
Proof.
  destruct o; eexists;
    (split; [run_op; reflexivity | split; run_op; reflexivity]).
Qed.

(** The metafield operations, through the helper as the spec describes
    it, follow the same pattern: one call, its error handed on. *)
Lemma metafield_errors_pass_through
    (W : Type) (c : Client W) (w : W) (id : N) (o : metafield_operation) :
  exists req : request,
    calls (invoke_product_metafields (mkProductServiceOp _ (recording c)) id o) w
      = [req] /\
    snd (fst (invoke_product_metafields (mkProductServiceOp _ c) id o w))
      = fst (perform c req w) /\
    invoke_customer_metafields (NewCustomerServiceOp c) id o
      = invoke_helper (mkMetafieldServiceOp W c customersResourceName id) o.
Proof.
  destruct o; eexists;
    (split; [run_op; reflexivity | split; [run_op; reflexivity | reflexivity]]).
Qed.


(** C3, at the product whose fields are all unset: the encoding still
    has the key "image", because Image is a struct and a struct is
    never empty for omitempty; it has no other key. *)
Theorem zero_product_encoding_keeps_image :
  keys (Marshal (Product_value zero_Product)) = ["image"].
Proof. reflexivity. Qed.

(** The customer whose fields are all unset encodes to the empty object. *)
Lemma zero_customer_encoding_is_empty :
  Marshal (Customer_value zero_Customer) = JObject [].
Proof. reflexivity. Qed.

(** ** Part 6b: item paths, read back *)

Lemma strip_prefix_append (p s : string) : strip_prefix p (p ++ s) = Some s.
Proof.
  induction p as [|a p IH]; cbn; [reflexivity|].
  rewrite Ascii.eqb_refl. exact IH.
Qed.

Lemma read_digits_numeral (d : string) :
  forall acc n t,
    Fmt.parse_digits acc d = Some n ->
    match t with
    | EmptyString => True
    | String c _ => Fmt.digit_value c = None
    end ->
    read_digits acc (d ++ t) = (n, t).
Proof.
  induction d as [|c d IH]; intros acc n t Hparse Ht; cbn in *.
  - injection Hparse as <-. destruct t as [|c t]; cbn; [reflexivity|].
    now rewrite Ht.
  - destruct (Fmt.digit_value c); [|discriminate].
    now apply IH.
Qed.

(** A path made of a base, a slash, the numeral of a uint64 and ".json"
    is read back as that number. *)
Lemma route_item_path (base : string) (id : N) :
  id < 2 ^ 64 ->
  route_item base (base ++ "/" ++ Fmt.fmtInteger id ++ ".json") = Some id.
Proof.
  intros Hid. unfold route_item.
  rewrite <- append_assoc, strip_prefix_append.
  destruct (fmtInteger_decimal id Hid) as [Hval _].
  destruct (Fmt.fmtInteger id) as [|c d] eqn:Hd; [discriminate|].
  unfold Fmt.decimal_value in Hval.
  change (String c d ++ ".json") with (String c (d ++ ".json")).
  assert (Hc : exists v, Fmt.digit_value c = Some v).
  { cbn in Hval. destruct (Fmt.digit_value c) as [v|]; [now exists v | discriminate]. }
  destruct Hc as [v Hc]. rewrite Hc.
  change (String c (d ++ ".json")) with (String c d ++ ".json").
  rewrite (read_digits_numeral (String c d) 0 id ".json" Hval) by reflexivity.
  reflexivity.
Qed.

(** The path of the one call an operation on an item makes. *)
Lemma item_operation_path
    (W : Type) (c : Client W) (w : W) (o : operation) (id : N) :
  item_id_of o = Some id ->
  paths_of c o w = [base_of o ++ "/" ++ Fmt.fmtInteger id ++ ".json"].
Proof.
  unfold paths_of.
  destruct o; cbn [item_id_of]; intros Hid; try discriminate;
    injection Hid as <-; run_op; reflexivity.
Qed.

(** The path of the one call an operation on a collection makes is no
    item path, under either base. *)
Lemma collection_operation_path_is_no_item
    (W : Type) (c : Client W) (w : W) (o : operation) (base : string) :
  item_id_of o = None ->
  base = productsBasePath \/ base = customersBasePath ->
  List.map (route_item base) (paths_of c o w) = [None].
Proof.
  unfold paths_of.
  destruct o; cbn [item_id_of]; intros Hid; try discriminate;
    intros [-> | ->]; run_op; reflexivity.
Qed.

(** X1: the path an item operation (Get, Update, Delete) sends, read
    back as <base>/<digits>.json under the base of its service, gives
    the id the operation was called with. *)
Theorem item_path_reads_back_as_the_id
    (W : Type) (c : Client W) (w : W) (o : operation) (id : N) :
  item_id_of o = Some id ->
  id < 2 ^ 64 ->
  List.map (route_item (base_of o)) (paths_of c o w) = [Some id].
Proof.
  intros Ho Hid.
  rewrite (item_operation_path W c w o id Ho). cbn [List.map].
  now rewrite route_item_path.
Qed.

(** X2: two item operations of the same service that send the same path
    are about the same id. *)
Theorem item_paths_are_injective
    (W : Type) (c : Client W) (w : W) (o1 o2 : operation) (id1 id2 : N) :
  item_id_of o1 = Some id1 ->
  item_id_of o2 = Some id2 ->
  id1 < 2 ^ 64 ->
  id2 < 2 ^ 64 ->
  is_product_operation o1 = is_product_operation o2 ->
  paths_of c o1 w = paths_of c o2 w ->
  id1 = id2.
Proof.
  intros H1 H2 Hid1 Hid2 Hsame Hpaths.
  rewrite (item_operation_path W c w o1 id1 H1) in Hpaths.
  rewrite (item_operation_path W c w o2 id2 H2) in Hpaths.
  unfold base_of in Hpaths. rewrite Hsame in Hpaths.
  remember (if is_product_operation o2 then productsBasePath else customersBasePath)
    as base eqn:Hbase.
  assert (Hpath : base ++ "/" ++ Fmt.fmtInteger id1 ++ ".json"
                  = base ++ "/" ++ Fmt.fmtInteger id2 ++ ".json")
    by congruence.
  apply (f_equal (route_item base)) in Hpath.
  rewrite !route_item_path in Hpath by assumption.
  congruence.
Qed.

(** X3: an item operation never sends the path of a collection-level
    operation (List, Count, Create, Search) of either service: no id is
    printed as "count" or "search". *)
Theorem item_path_is_no_collection_path
    (W : Type) (c : Client W) (w : W) (o1 o2 : operation) (id : N) :
  item_id_of o1 = Some id ->
  id < 2 ^ 64 ->
  item_id_of o2 = None ->
  paths_of c o1 w <> paths_of c o2 w.
Proof.
  intros H1 Hid H2 Hpaths.
  assert (Hitem : List.map (route_item (base_of o1)) (paths_of c o1 w) = [Some id]).
  { rewrite (item_operation_path W c w o1 id H1). cbn [List.map].
    now rewrite route_item_path. }
  rewrite Hpaths in Hitem.
  rewrite (collection_operation_path_is_no_item W c w o2 (base_of o1) H2) in Hitem.
  - discriminate.
  - unfold base_of. destruct (is_product_operation o1); auto.
Qed.

(** X4: an operation of the product service and an operation of the
    customer service never send the same path. *)
Theorem services_do_not_share_paths
    (W : Type) (c : Client W) (w : W) (o1 o2 : operation) :
  is_product_operation o1 = true ->
  is_product_operation o2 = false ->
  paths_of c o1 w <> paths_of c o2 w.
Proof.
  unfold paths_of.
  destruct o1; cbn [is_product_operation]; intros H1; try discriminate;
    destruct o2; cbn [is_product_operation]; intros H2; try discriminate;
    run_op; intros H; discriminate H.
Qed.

(** ** Part 6c: what an operation sends, and what a caller sees *)

(** Every operation makes one call. *)
Lemma errors_pass_through_calls
    (W : Type) (c : Client W) (w : W) (o : operation) :
  exists req : request, calls (invoke (recording c) o) w = [req].
Proof.
  destruct o; eexists; run_op; reflexivity.
Qed.

(** Whatever the log holds, an operation appends the calls it makes
    when started on an empty log, in any world of any client. *)
Lemma invoke_appends_its_calls
    (W W' : Type) (c : Client W) (c' : Client W') (w : W) (w' : W')
    (log : list request) (o : operation) :
  snd (snd (invoke (recording c) o (w, log)))
    = (log ++ calls (invoke (recording c') o) w')%list.
Proof.
  destruct o; run_op; reflexivity.
Qed.

(** X5: the call an operation makes is fixed by the operation and its
    arguments alone: it is the same over every client and in every
    world, whatever earlier calls returned. *)
Theorem calls_do_not_depend_on_the_world
    (W1 W2 : Type) (c1 : Client W1) (c2 : Client W2) (w1 : W1) (w2 : W2)
    (o : operation) :
  calls (invoke (recording c1) o) w1 = calls (invoke (recording c2) o) w2.
Proof.
  destruct o; run_op; reflexivity.
Qed.

(** X6: a caller that makes a list of operations one after the other
    makes exactly the calls of each of them, in that order, one call for
    each operation: nothing is merged, skipped after a failure, answered
    from an earlier result, or tried again. *)
Theorem operations_in_sequence
    (W : Type) (c : Client W) (w : W) (os : list operation) :
  calls (invoke_all (recording c) os) w
    = List.flat_map (fun o => calls (invoke (recording c) o) w) os /\
  List.length (calls (invoke_all (recording c) os) w) = List.length os.
Proof.
  assert (Hgen : forall os w0 log,
             snd (snd (invoke_all (recording c) os (w0, log)))
             = (log ++ List.flat_map (fun o => calls (invoke (recording c) o) w) os)%list).
  { clear os. induction os as [|o os IH]; intros w0 log.
    - cbn. now rewrite app_nil_r.
    - cbn [invoke_all List.flat_map]. unfold bind at 1.
      pose proof (invoke_appends_its_calls W W c c w0 w log o) as Hlog.
      destruct (invoke (recording c) o (w0, log)) as [r [w1 log1]] eqn:Hrun.
      cbn [snd] in Hlog. subst log1.
      unfold bind at 1.
      specialize (IH w1 (log ++ calls (invoke (recording c) o) w)%list).
      destruct (invoke_all (recording c) os
                  (w1, (log ++ calls (invoke (recording c) o) w)%list))
        as [rs [w2 log2]] eqn:Hrest.
      cbn [snd] in IH. subst log2. cbn [ret snd].
      now rewrite app_assoc. }
  split.
  - unfold calls at 1. rewrite Hgen. reflexivity.
  - unfold calls at 1. rewrite Hgen. cbn [app].
    induction os as [|o os IH]; [reflexivity|].
    cbn [List.flat_map]. rewrite length_app, IH.
    destruct (errors_pass_through_calls W c w o) as [req ->]. reflexivity.
Qed.

(** X7: the destination an operation hands to the client is always a
    freshly zero-valued envelope of the kind it reads its result from;
    no operation hands over a value of the caller or of an earlier call. *)
Theorem destinations_are_fresh
    (W : Type) (c : Client W) (w : W) (o : operation) :
  List.Forall
    (fun req =>
       match request_destination req with
       | Some (existT _ k resource) => resource = new k
       | None => True
       end)
    (calls (invoke (recording c) o) w).
Proof.
  destruct o; run_op; repeat constructor.
Qed.

(** X8: List and Search make one Get call, to "<base>.json" and to
    "admin/customers/search.json", with the options as given, and return
    the plural field of the destination and the error as that call left
    them; Get returns the singular field and the error in the same
    way, also when the call stored an entity. *)
Theorem reads_return_what_the_call_left
    (W : Type) (c : Client W) (w : W) (id : N) (options : iface) :
  (calls (ProductServiceOp_List (mkProductServiceOp _ (recording c)) options) w
     = [ReqGet "admin/products.json"
          (existT rtype KProductsResource (new KProductsResource)) options] /\
   ProductServiceOp_List (mkProductServiceOp _ c) options w
     = let (out, w') :=
         Client_Get c KProductsResource "admin/products.json"
           (new KProductsResource) options w in
       ((ProductsResource_Products (fst out), snd out), w')) /\
  (calls (CustomerServiceOp_List (NewCustomerServiceOp (recording c)) options) w
     = [ReqGet "admin/customers.json"
          (existT rtype KCustomersResource (new KCustomersResource)) options] /\
   CustomerServiceOp_List (NewCustomerServiceOp c) options w
     = let (out, w') :=
         Client_Get c KCustomersResource "admin/customers.json"
           (new KCustomersResource) options w in
       ((CustomersResource_Customers (fst out), snd out), w')) /\
  (calls (CustomerServiceOp_Search (NewCustomerServiceOp (recording c)) options) w
     = [ReqGet "admin/customers/search.json"
          (existT rtype KCustomersResource (new KCustomersResource)) options] /\
   CustomerServiceOp_Search (NewCustomerServiceOp c) options w
     = let (out, w') :=
         Client_Get c KCustomersResource "admin/customers/search.json"
           (new KCustomersResource) options w in
       ((CustomersResource_Customers (fst out), snd out), w')) /\
  ProductServiceOp_Get (mkProductServiceOp _ c) id options w
    = (let (out, w') :=
         Client_Get c KProductResource
           ("admin/products/" ++ Fmt.fmtInteger id ++ ".json")
           (new KProductResource) options w in
       ((ProductResource_Product (fst out), snd out), w')) /\
  CustomerServiceOp_Get (NewCustomerServiceOp c) id options w
    = (let (out, w') :=
         Client_Get c KCustomerResource
           ("admin/customers/" ++ Fmt.fmtInteger id ++ ".json")
           (new KCustomerResource) options w in
       ((CustomerResource_Customer (fst out), snd out), w')).
Proof.
  repeat split; run_op; reflexivity.
Qed.

(** X9: Update sends its call to the path that Get and Delete use for
    the ID held in the entity, with the entity as it was passed as the
    body; Create sends its call to the path List reads from.  Only
    Create and Update send a body. *)
Theorem writes_address_what_reads_address
    (W : Type) (c : Client W) (w : W) (product : Product) (customer : Customer)
    (options : iface) :
  paths_of c (ProductUpdate product) w
    = paths_of c (ProductGet (Product_ID product) options) w /\
  paths_of c (ProductUpdate product) w
    = paths_of c (ProductDelete (Product_ID product)) w /\
  paths_of c (CustomerUpdate customer) w
    = paths_of c (CustomerGet (Customer_ID customer) options) w /\
  paths_of c (CustomerUpdate customer) w
    = paths_of c (CustomerDelete (Customer_ID customer)) w /\
  paths_of c (ProductCreate product) w = paths_of c (ProductList options) w /\
  paths_of c (CustomerCreate customer) w = paths_of c (CustomerList options) w /\
  (forall o : operation,
      List.map request_body (calls (invoke (recording c) o) w)
      = [match o with
         | ProductCreate p | ProductUpdate p =>
             Some (existT rtype KProductResource (mkProductResource (Some p)))
         | CustomerCreate x | CustomerUpdate x =>
             Some (existT rtype KCustomerResource (mkCustomerResource (Some x)))
         | _ => None
         end]).
Proof.
  unfold paths_of.
  repeat split; try (run_op; reflexivity).
  intros o; destruct o; run_op; reflexivity.
Qed.

(** ** Part 6d: which keys an entity is encoded with *)

Lemma In_NoDup_map_eq {A B : Type} (g : A -> B) (l : list A) (a b : A) :
  NoDup (List.map g l) -> In a l -> In b l -> g a = g b -> a = b.
Proof.
  induction l as [|h l IH]; cbn; intros Hnd Ha Hb Hg; [contradiction|].
  inversion Hnd as [|? ? Hnotin Hnd']; subst.
  destruct Ha as [-> | Ha], Hb as [-> | Hb].
  - reflexivity.
  - exfalso. apply Hnotin. rewrite Hg. now apply in_map.
  - exfalso. apply Hnotin. rewrite <- Hg. now apply in_map.
  - now apply IH.
Qed.

(** In a struct whose field names are distinct, the key of a field is
    written exactly when the field is not left out. *)
Lemma struct_key_present_iff (fields : list (tag * value)) (t : tag) (x : value) :
  NoDup (List.map (fun f => tag_name (fst f)) fields) ->
  In (t, x) fields ->
  (In (tag_name t) (keys (Marshal (VStruct fields)))
   <-> tag_omitempty t && isEmptyValue x = false).
Proof.
  intros Hnd Hin. rewrite Marshal_struct_keys, in_map_iff. split.
  - intros ([t' x'] & Hname & Hf). apply filter_In in Hf as [Hf Hkeep].
    assert (Heq : (t', x') = (t, x))
      by (apply (In_NoDup_map_eq (fun f => tag_name (fst f)) fields); assumption).
    injection Heq as -> ->. cbn [fst snd] in Hkeep.
    now apply negb_true_iff.
  - intros Hkeep. exists (t, x). split; [reflexivity|].
    apply filter_In. split; [exact Hin|]. cbn [fst snd].
    now apply negb_true_iff.
Qed.

(** A list of string literals has no repetition. *)
Ltac distinct_names :=
  cbn; repeat (constructor;
               [ let H := fresh in
                 cbn; intros H;
                 repeat (destruct H as [H | H]; [discriminate H|]); exact H
               | ]);
  constructor.

Lemma Customer_fields_distinct (c : Customer) :
  NoDup (List.map (fun f => tag_name (fst f)) (fields_of (Customer_value c))) /\
  List.Forall (fun f => tag_omitempty (fst f) = true) (fields_of (Customer_value c)).
Proof.
  split; [distinct_names | cbn; repeat constructor].
Qed.

Lemma Product_fields_distinct (p : Product) :
  NoDup (List.map (fun f => tag_name (fst f)) (fields_of (Product_value p))) /\
  List.Forall (fun f => tag_omitempty (fst f) = true) (fields_of (Product_value p)).
Proof.
  split; [distinct_names | cbn; repeat constructor].
Qed.

Lemma ProductOption_fields_distinct (o : ProductOption) :
  NoDup (List.map (fun f => tag_name (fst f)) (fields_of (ProductOption_value o))) /\
  List.Forall (fun f => tag_omitempty (fst f) = true) (fields_of (ProductOption_value o)).
Proof.
  split; [distinct_names | cbn; repeat constructor].
Qed.

(** X10: for every customer and every field of the Customer struct, the
    field's key is in the encoding exactly when the field is not empty
    (not false, 0, "", a nil pointer or a slice without elements). *)
Theorem customer_key_present_iff_field_not_empty
    (c : Customer) (t : tag) (x : value) :
  In (t, x) (fields_of (Customer_value c)) ->
  (In (tag_name t) (keys (Marshal (Customer_value c))) <-> isEmptyValue x = false).
Proof.
  intros Hin. destruct (Customer_fields_distinct c) as [Hnd Hall].
  rewrite Forall_forall in Hall. specialize (Hall _ Hin). cbn [fst] in Hall.
  change (Customer_value c) with (VStruct (fields_of (Customer_value c))) at 1.
  rewrite (struct_key_present_iff _ t x Hnd Hin), Hall. reflexivity.
Qed.

(** X11: the same for every product and every field of the Product
    struct, and for every product option; the image field, being a
    struct, is never empty, so its key is always there. *)
Theorem product_key_present_iff_field_not_empty
    (p : Product) (o : ProductOption) (t : tag) (x : value) :
  (In (t, x) (fields_of (Product_value p)) ->
   (In (tag_name t) (keys (Marshal (Product_value p))) <-> isEmptyValue x = false)) /\
  (In (t, x) (fields_of (ProductOption_value o)) ->
   (In (tag_name t) (keys (Marshal (ProductOption_value o)))
    <-> isEmptyValue x = false)).
Proof.
  split; intros Hin.
  - destruct (Product_fields_distinct p) as [Hnd Hall].
    rewrite Forall_forall in Hall. specialize (Hall _ Hin). cbn [fst] in Hall.
    change (Product_value p) with (VStruct (fields_of (Product_value p))) at 1.
    rewrite (struct_key_present_iff _ t x Hnd Hin), Hall. reflexivity.
  - destruct (ProductOption_fields_distinct o) as [Hnd Hall].
    rewrite Forall_forall in Hall. specialize (Hall _ Hin). cbn [fst] in Hall.
    change (ProductOption_value o)
      with (VStruct (fields_of (ProductOption_value o))) at 1.
    rewrite (struct_key_present_iff _ t x Hnd Hin), Hall. reflexivity.
Qed.

(** Find a field in the list of fields of a struct. *)
Ltac field_in := cbn; repeat (first [left; reflexivity | right]).

(** The key of one named field, through [struct_key_present_iff]. *)
Ltac key_of_field Hnd t x :=
  let Hin := fresh "Hin" in
  let Hkey := fresh "Hkey" in
  match type of Hnd with
  | NoDup (List.map _ ?fields) =>
      assert (Hin : In (t, x) fields) by field_in;
      pose proof (struct_key_present_iff fields t x Hnd Hin) as Hkey;
      cbn [tag_name tag_omitempty omitempty andb isEmptyValue] in Hkey
  end.

Lemma len_slice_value {A : Type} (f : A -> value) (s : slice A) :
  len (option_map (List.map f) s) = len s.
Proof.
  destruct s as [l|]; cbn; [apply length_map | reflexivity].
Qed.

(** X12: a customer is encoded with the key verified_email, tax_exempt
    or accepts_marketing exactly when that flag is true, and with
    orders_count or last_order_id exactly when that number is not 0: the
    value false and the number 0 are never written. *)
Theorem false_flags_and_zero_counts_are_never_sent (c : Customer) :
  (In "verified_email" (keys (Marshal (Customer_value c)))
   <-> Customer_VerifiedEmail c = true) /\
  (In "tax_exempt" (keys (Marshal (Customer_value c)))
   <-> Customer_TaxExempt c = true) /\
  (In "accepts_marketing" (keys (Marshal (Customer_value c)))
   <-> Customer_AcceptsMarketing c = true) /\
  (In "orders_count" (keys (Marshal (Customer_value c)))
   <-> Customer_OrdersCount c <> 0%Z) /\
  (In "last_order_id" (keys (Marshal (Customer_value c)))
   <-> Customer_LastOrderId c <> 0%Z).
Proof.
  destruct (Customer_fields_distinct c) as [Hnd _].
  change (Customer_value c) with (VStruct (fields_of (Customer_value c))).
  repeat split.
  1,2: key_of_field Hnd (omitempty "verified_email") (VBool (Customer_VerifiedEmail c)).
  3,4: key_of_field Hnd (omitempty "tax_exempt") (VBool (Customer_TaxExempt c)).
  5,6: key_of_field Hnd (omitempty "accepts_marketing")
         (VBool (Customer_AcceptsMarketing c)).
  7,8: key_of_field Hnd (omitempty "orders_count") (VInt (Customer_OrdersCount c)).
  9,10: key_of_field Hnd (omitempty "last_order_id") (VInt (Customer_LastOrderId c)).
  all: rewrite Hkey;
    try (rewrite negb_false_iff; tauto);
    rewrite Z.eqb_neq; tauto.
Qed.

(** X13: a product, a product option or a customer is encoded with the
    key id exactly when its ID is not 0; an entity passed to Create
    without an ID carries no id in its body. *)
Theorem zero_id_is_never_sent (p : Product) (o : ProductOption) (c : Customer) :
  (In "id" (keys (Marshal (Product_value p))) <-> Product_ID p <> 0) /\
  (In "id" (keys (Marshal (ProductOption_value o))) <-> ProductOption_ID o <> 0) /\
  (In "id" (keys (Marshal (Customer_value c))) <-> Customer_ID c <> 0).
Proof.
  destruct (Product_fields_distinct p) as [Hp _].
  destruct (ProductOption_fields_distinct o) as [Ho _].
  destruct (Customer_fields_distinct c) as [Hc _].
  change (Product_value p) with (VStruct (fields_of (Product_value p))).
  change (ProductOption_value o) with (VStruct (fields_of (ProductOption_value o))).
  change (Customer_value c) with (VStruct (fields_of (Customer_value c))).
  repeat split.
  1,2: key_of_field Hp (omitempty "id") (VUint (Product_ID p)).
  3,4: key_of_field Ho (omitempty "id") (VUint (ProductOption_ID o)).
  5,6: key_of_field Hc (omitempty "id") (VUint (Customer_ID c)).
  all: rewrite Hkey, N.eqb_neq; tauto.
Qed.

(** X14: a slice field is encoded exactly when it has at least one
    element: a slice that is empty but not nil is left out like the nil
    slice, for the options, variants, images and metafields of a product
    and the addresses and metafields of a customer. *)
Theorem empty_slices_are_never_sent (p : Product) (c : Customer) :
  (In "options" (keys (Marshal (Product_value p))) <-> len (Product_Options p) <> O) /\
  (In "variants" (keys (Marshal (Product_value p))) <-> len (Product_Variants p) <> O) /\
  (In "images" (keys (Marshal (Product_value p))) <-> len (Product_Images p) <> O) /\
  (In "metafields" (keys (Marshal (Product_value p)))
   <-> len (Product_Metafields p) <> O) /\
  (In "addresses" (keys (Marshal (Customer_value c)))
   <-> len (Customer_Addresses c) <> O) /\
  (In "metafields" (keys (Marshal (Customer_value c)))
   <-> len (Customer_Metafields c) <> O).
Proof.
  destruct (Product_fields_distinct p) as [Hp _].
  destruct (Customer_fields_distinct c) as [Hc _].
  change (Product_value p) with (VStruct (fields_of (Product_value p))).
  change (Customer_value c) with (VStruct (fields_of (Customer_value c))).
  repeat split.
  1,2: key_of_field Hp (omitempty "options")
         (slice_value ProductOption_value (Product_Options p)).
  3,4: key_of_field Hp (omitempty "variants")
         (slice_value Variant_value (Product_Variants p)).
  5,6: key_of_field Hp (omitempty "images")
         (slice_value Image_value (Product_Images p)).
  7,8: key_of_field Hp (omitempty "metafields")
         (slice_value Metafield_value (Product_Metafields p)).
  9,10: key_of_field Hc (omitempty "addresses")
          (slice_value (ptr_value CustomerAddress_value) (Customer_Addresses c)).
  11,12: key_of_field Hc (omitempty "metafields")
           (slice_value Metafield_value (Customer_Metafields c)).
  all: unfold slice_value in Hkey; cbn [isEmptyValue] in Hkey;
    rewrite len_slice_value in Hkey;
    rewrite Hkey, Nat.eqb_neq; tauto.
Qed.

(** An envelope around a non-nil pointer encodes to an object with the
    one member of that name. *)
Lemma Marshal_envelope (name : string) (v : value) :
  Marshal (VStruct [(always name, VPtr (Some v))]) = JObject [(name, Marshal v)].
Proof. reflexivity. Qed.

(** X15: the body Create and Update send is encoded as an object with
    the one key product (customer) holding the encoding of the entity as
    passed; the envelope key is written whatever the envelope holds, a
    fresh envelope as null. *)
Theorem bodies_are_singular_envelopes
    (W : Type) (c : Client W) (w : W) (product : Product) (customer : Customer) :
  (exists data : ProductResource,
      List.map request_body (calls (invoke (recording c) (ProductCreate product)) w)
        = [Some (existT rtype KProductResource data)] /\
      List.map request_body (calls (invoke (recording c) (ProductUpdate product)) w)
        = [Some (existT rtype KProductResource data)] /\
      Marshal (ProductResource_value data)
        = JObject [("product", Marshal (Product_value product))]) /\
  (exists data : CustomerResource,
      List.map request_body (calls (invoke (recording c) (CustomerCreate customer)) w)
        = [Some (existT rtype KCustomerResource data)] /\
      List.map request_body (calls (invoke (recording c) (CustomerUpdate customer)) w)
        = [Some (existT rtype KCustomerResource data)] /\
      Marshal (CustomerResource_value data)
        = JObject [("customer", Marshal (Customer_value customer))]) /\
  (forall r, keys (Marshal (ProductResource_value r)) = ["product"]) /\
  (forall r, keys (Marshal (ProductsResource_value r)) = ["products"]) /\
  (forall r, keys (Marshal (CustomerResource_value r)) = ["customer"]) /\
  (forall r, keys (Marshal (CustomersResource_value r)) = ["customers"]) /\
  Marshal (ProductResource_value (new KProductResource)) = JObject [("product", JNull)] /\
  Marshal (CustomersResource_value (new KCustomersResource))
    = JObject [("customers", JNull)].
Proof.
  split.
  { exists (mkProductResource (Some product)).
    split; [run_op; reflexivity|]. split; [run_op; reflexivity|].
    exact (Marshal_envelope "product" (Product_value product)). }
  split.
  { exists (mkCustomerResource (Some customer)).
    split; [run_op; reflexivity|]. split; [run_op; reflexivity|].
    exact (Marshal_envelope "customer" (Customer_value customer)). }
  split; [intros r; reflexivity|].
  split; [intros r; reflexivity|].
  split; [intros r; reflexivity|].
  split; [intros r; reflexivity|].
  split; reflexivity.
Qed.

(** ** Part 6e: no formatting failure reaches a path *)

Lemma has_char_append (a : ascii) (s1 s2 : string) :
  has_char a (s1 ++ s2) = has_char a s1 || has_char a s2.
Proof.
  induction s1 as [|c s1 IH]; cbn; [reflexivity|].
  now rewrite IH, orb_assoc.
Qed.

Lemma parse_digits_only_digits (s : string) :
  forall acc n a,
    Fmt.parse_digits acc s = Some n ->
    Fmt.digit_value a = None ->
    has_char a s = false.
Proof.
  induction s as [|c s IH]; intros acc n a Hparse Ha; cbn in *; [reflexivity|].
  destruct (Fmt.digit_value c) as [v|] eqn:Hc; [|discriminate].
  rewrite (IH _ _ a Hparse Ha), orb_false_r.
  apply Ascii.eqb_neq. intros ->. congruence.
Qed.

(** X16: no path an operation sends contains the character '%': the
    directives of every format string match their operands, so no
    report of a wrong verb, a missing operand or an extra operand is
    ever printed into a path. *)
Theorem paths_carry_no_format_report
    (W : Type) (c : Client W) (w : W) (o : operation) :
  (forall id, item_id_of o = Some id -> id < 2 ^ 64) ->
  List.Forall (fun path => has_char "%" path = false) (paths_of c o w).
Proof.
  intros Hbound. destruct (item_id_of o) as [id|] eqn:Ho.
  - rewrite (item_operation_path W c w o id Ho).
    constructor; [|constructor].
    destruct (fmtInteger_decimal id (Hbound id eq_refl)) as [Hval _].
    assert (Hd : has_char "%" (Fmt.fmtInteger id) = false).
    { destruct (Fmt.fmtInteger id) as [|a d]; [reflexivity|].
      exact (parse_digits_only_digits (String a d) 0 id "%" Hval eq_refl). }
    unfold base_of.
    destruct (is_product_operation o); cbn;
      now rewrite has_char_append, Hd.
  - unfold paths_of. destruct o; try discriminate Ho; run_op; repeat constructor.
Qed.

End GoShopify.


(** ** Part 7: the theorems at concrete clients

    All type parameters are [unit], errors are strings. *)

#[local] Notation Client0 := (@Client unit unit unit unit unit unit unit string unit).
#[local] Notation nil_options := (@None unit).
#[local] Notation idle := (stub_client leave 0%Z None : Client0).
#[local] Notation failing := (stub_client leave 0%Z (Some "timeout") : Client0).
#[local] Notation half_decoded :=
  (stub_client (fill_products [zero_Product tt]) 0%Z
     (Some "json: cannot unmarshal number into Go struct field Product.title of type string")
   : Client0).

Lemma item_operations_target_the_item_path_witness :
  42 < 2 ^ 64 /\
  exists d : string,
    Fmt.decimal_of 42 d /\
    calls (ProductServiceOp_Get (mkProductServiceOp _ (recording idle)) 42 nil_options) tt
      = [ReqGet ("admin/products/" ++ d ++ ".json")
           (existT rtype KProductResource (new KProductResource)) nil_options] /\
    calls (ProductServiceOp_Delete (mkProductServiceOp _ (recording idle)) 42) tt
      = [ReqDelete ("admin/products/" ++ d ++ ".json")] /\
    calls (CustomerServiceOp_Get (NewCustomerServiceOp (recording idle)) 42 nil_options) tt
      = [ReqGet ("admin/customers/" ++ d ++ ".json")
           (existT rtype KCustomerResource (new KCustomerResource)) nil_options] /\
    calls (CustomerServiceOp_Delete (NewCustomerServiceOp (recording idle)) 42) tt
      = [ReqDelete ("admin/customers/" ++ d ++ ".json")].
Proof.
  split; [reflexivity|].
  apply (item_operations_target_the_item_path unit idle tt 42 nil_options).
  reflexivity.
Defined.



Lemma update_without_id_targets_zero_witness :
  Product_ID (zero_Product tt : @Product unit unit unit unit) = 0 /\
  Customer_ID (zero_Customer : @Customer unit unit unit unit) = 0 /\
  calls (ProductServiceOp_Update (mkProductServiceOp _ (recording idle)) (zero_Product tt)) tt
    = [ReqPut "admin/products/0.json"
         (existT rtype KProductResource (mkProductResource (Some (zero_Product tt))))
         (existT rtype KProductResource (new KProductResource))] /\
  calls (CustomerServiceOp_Update (NewCustomerServiceOp (recording idle)) zero_Customer) tt
    = [ReqPut "admin/customers/0.json"
         (existT rtype KCustomerResource (mkCustomerResource (Some zero_Customer)))
         (existT rtype KCustomerResource (new KCustomerResource))].
Proof.
  split; [reflexivity|]. split; [reflexivity|].
  destruct (update_without_id_targets_zero unit idle tt (zero_Product tt) zero_Customer
              eq_refl eq_refl) as [[Hp _] [Hc _]].
  split; [exact Hp | exact Hc].
Defined.

Lemma metafield_operations_delegate_witness :
  42 < 2 ^ 64 /\
  exists d : string,
    Fmt.decimal_of 42 d /\
    (exists r : request,
        calls (invoke_product_metafields (fun _ : unit => 0)
                 (mkProductServiceOp _ (recording idle)) 42
                 (ListMetafields nil_options)) tt = [r] /\
        starts_with ("products/" ++ d ++ "/metafields") (request_path r)) /\
    (exists r : request,
        calls (invoke_customer_metafields (fun _ : unit => 0)
                 (NewCustomerServiceOp (recording idle)) 42
                 (ListMetafields nil_options)) tt = [r] /\
        starts_with ("customers/" ++ d ++ "/metafields") (request_path r)).
Proof.
  split; [reflexivity|].
  apply (metafield_operations_delegate (fun _ : unit => 0) unit idle tt 42
           (ListMetafields nil_options)).
  reflexivity.
Defined.

Lemma get_may_return_nil_nil_witness :
  Client_Get _ idle KProductResource ("admin/products/" ++ Fmt.fmtInteger 42 ++ ".json")
    (new KProductResource) nil_options tt = ((new KProductResource, None), tt) /\
  ProductResource_Product
    (fst (fst (Client_Get _ idle KProductResource
                 ("admin/products/" ++ Fmt.fmtInteger 42 ++ ".json")
                 (new KProductResource) nil_options tt))) = None /\
  fst (ProductServiceOp_Get (mkProductServiceOp _ idle) 42 nil_options tt) = (None, None).
Proof.
  split; [reflexivity|]. split; [reflexivity|].
  eapply (proj1 (get_may_return_nil_nil unit idle tt 42 nil_options));
    reflexivity.
Defined.

Lemma verb_v_equals_verb_d_witness :
  42 < 2 ^ 64 /\
  Fmt.Sprintf "%s/%v.json" [Fmt.ArgString customersBasePath; Fmt.ArgUint64 42]
    = Fmt.Sprintf "%s/%d.json" [Fmt.ArgString customersBasePath; Fmt.ArgUint64 42].
Proof.
  split; [reflexivity|].
  exact (proj1 (verb_v_equals_verb_d unit idle tt 42 nil_options eq_refl)).
Defined.

#[local] Notation Operation0 := (@operation unit unit unit unit unit unit unit).
#[local] Notation get42 := (ProductGet 42 nil_options : Operation0).
#[local] Notation delete42 := (ProductDelete 42 : Operation0).
#[local] Notation count_products := (ProductCount nil_options : Operation0).
#[local] Notation list_products := (ProductList nil_options : Operation0).
#[local] Notation list_customers := (CustomerList nil_options : Operation0).
#[local] Notation no_json := (fun _ : unit => JNull).
#[local] Notation no_value := (fun _ : unit => VStruct []).
#[local] Notation no_fields := (fun _ : unit => @nil (tag * value)).

Lemma item_path_reads_back_as_the_id_witness :
  item_id_of get42 = Some 42 /\
  42 < 2 ^ 64 /\
  List.map (route_item (base_of get42)) (paths_of idle get42 tt) = [Some 42].
Proof.
  split; [reflexivity|]. split; [reflexivity|].
  exact (item_path_reads_back_as_the_id unit idle tt get42 42 eq_refl eq_refl).
Defined.

Lemma item_paths_are_injective_witness :
  item_id_of get42 = Some 42 /\
  item_id_of delete42 = Some 42 /\
  42 < 2 ^ 64 /\
  is_product_operation get42 = is_product_operation delete42 /\
  paths_of idle get42 tt = paths_of idle delete42 tt /\
  42 = 42.
Proof.
  repeat (split; [reflexivity|]).
  exact (item_paths_are_injective unit idle tt get42 delete42 42 42
           eq_refl eq_refl eq_refl eq_refl eq_refl eq_refl).
Defined.

Lemma item_path_is_no_collection_path_witness :
  item_id_of get42 = Some 42 /\
  42 < 2 ^ 64 /\
  item_id_of count_products = None /\
  paths_of idle get42 tt <> paths_of idle count_products tt.
Proof.
  repeat (split; [reflexivity|]).
  exact (item_path_is_no_collection_path unit idle tt get42 count_products 42
           eq_refl eq_refl eq_refl).
Defined.

Lemma services_do_not_share_paths_witness :
  is_product_operation list_products = true /\
  is_product_operation list_customers = false /\
  paths_of idle list_products tt <> paths_of idle list_customers tt.
Proof.
  repeat (split; [reflexivity|]).
  exact (services_do_not_share_paths unit idle tt list_products list_customers
           eq_refl eq_refl).
Defined.

Lemma customer_key_present_iff_field_not_empty_witness :
  In (omitempty "id", VUint 0)
     (fields_of (Customer_value no_json no_json no_value no_value zero_Customer)) /\
  (In "id" (keys (Marshal (Customer_value no_json no_json no_value no_value
                             zero_Customer)))
   <-> isEmptyValue (VUint 0) = false).
Proof.
  assert (Hin : In (omitempty "id", VUint 0)
                  (fields_of (Customer_value no_json no_json no_value no_value
                                zero_Customer)))
    by (left; reflexivity).
  split; [exact Hin|].
  exact (customer_key_present_iff_field_not_empty no_json no_json no_value no_value
           zero_Customer (omitempty "id") (VUint 0) Hin).
Defined.

Lemma product_key_present_iff_field_not_empty_witness :
  In (omitempty "id", VUint 0)
     (fields_of (Product_value no_json no_value no_value no_fields (zero_Product tt))) /\
  (In "id" (keys (Marshal (Product_value no_json no_value no_value no_fields
                             (zero_Product tt))))
   <-> isEmptyValue (VUint 0) = false).
Proof.
  assert (Hin : In (omitempty "id", VUint 0)
                  (fields_of (Product_value no_json no_value no_value no_fields
                                (zero_Product tt))))
    by (left; reflexivity).
  split; [exact Hin|].
  exact (proj1 (product_key_present_iff_field_not_empty no_json no_value no_value
                  no_fields (zero_Product tt) (mkProductOption 0 0 "" 0 None)
                  (omitempty "id") (VUint 0)) Hin).
Defined.

Lemma paths_carry_no_format_report_witness :
  (forall id, item_id_of get42 = Some id -> id < 2 ^ 64) /\
  List.Forall (fun path => has_char "%" path = false) (paths_of idle get42 tt).
Proof.
  assert (Hb : forall id, item_id_of get42 = Some id -> id < 2 ^ 64)
    by (intros id Hid; injection Hid as <-; reflexivity).
  split; [exact Hb|].
  exact (paths_carry_no_format_report unit idle tt get42 Hb).
Defined.

(** ** Part 8: sample calls *)

Example fmtInteger_42 : Fmt.fmtInteger 42 = "42".
Proof. reflexivity. Qed.

Example fmtInteger_max :
  Fmt.fmtInteger 18446744073709551615 = "18446744073709551615".
Proof. reflexivity. Qed.

Example Sprintf_item :
  Fmt.Sprintf "%s/%d.json" [Fmt.ArgString "admin/products"; Fmt.ArgUint64 7]
    = "admin/products/7.json".
Proof. reflexivity. Qed.

Example Sprintf_wrong_operand : Fmt.Sprintf "%d" [Fmt.ArgString "x"] = "%!d(string=x)".
Proof. reflexivity. Qed.

Example product_42_metafields :
  calls (ProductServiceOp_ListMetafields
           (mkProductServiceOp _ (recording idle)) 42 nil_options) tt
    = [ReqGet "products/42/metafields.json"
         (existT rtype KMetafieldsResource (new KMetafieldsResource)) nil_options].
Proof. reflexivity. Qed.
